(** * Verification workflow of the id-verification-system backend

    A shallow embedding of the three TypeScript sources the workflow lives
    in: [config/env.ts] (the configuration object), [services/innovatricsClient.ts]
    (the provider client, class [InnovatricsService]) and
    [controllers/verificationController.ts] (the request handlers, class
    [VerificationController]), together with the reference check of
    [routes/verificationRoutes.ts].

    The code is dynamically typed at its edges (request bodies, provider
    payloads, caught errors are all [any]), so values are embedded as
    JavaScript values with the language's own truthiness, [||], property
    access and string conversion.  Provider calls are the only effect: they
    are recorded in a log of outbound requests and answered by a provider
    given as a function of that log.  Console output is not modelled. *)

From Stdlib Require Import String List ZArith Bool Lia.
Set Warnings "-register-all".
Import ListNotations.
Local Open Scope list_scope.
Local Open Scope string_scope.

(* ================================================================== *)
(** ** JavaScript values *)
(* ================================================================== *)

Module JS.

(** A number is carried by its canonical rendering, the text [String(n)]
    yields: the program never computes with numbers, it only tests,
    prints and forwards them. *)
Inductive Value : Type :=
| JUndefined
| JNull
| JBool (b : bool)
| JNum (rendering : string)
| JStr (s : string)
| JObj (fields : list (string * Value))
| JArr (items : list Value).

Definition Object := list (string * Value).

(** Own-property lookup in a property list; a missing key reads as
    [undefined]. *)
Fixpoint lookup (o : Object) (k : string) : Value :=
  match o with
  | [] => JUndefined
  | (k', v) :: rest => if String.eqb k' k then v else lookup rest k
  end.

(** [v?.k]: optional chaining never throws.  None of the property names
    the program reads exists on a primitive or an array, so those read as
    [undefined]. *)
Definition get (v : Value) (k : string) : Value :=
  match v with
  | JObj o => lookup o k
  | _ => JUndefined
  end.

(** ToBoolean. *)
Definition truthy (v : Value) : bool :=
  match v with
  | JUndefined | JNull => false
  | JBool b => b
  | JNum r => negb (String.eqb r "0" || String.eqb r "NaN")
  | JStr s => negb (String.eqb s "")
  | JObj _ | JArr _ => true
  end.

(** [a || b]. *)
Definition orElse (a b : Value) : Value := if truthy a then a else b.

(** [v !== undefined]. *)
Definition defined (v : Value) : bool :=
  match v with JUndefined => false | _ => true end.

(** A thrown [Error].  Errors raised by the HTTP client carry the
    provider's [response]; a plain [new Error(msg)] or a [TypeError] has
    none. *)
Record Error : Type := mkError { response : Value; message : string }.

Definition newError (msg : string) : Error :=
  {| response := JUndefined; message := msg |}.

(** Whether a property list has an own property [k], whatever its value. *)
Fixpoint has_key (o : Object) (k : string) : bool :=
  match o with
  | [] => false
  | (k', _) :: rest => String.eqb k' k || has_key rest k
  end.

(** The [TypeError] of a conversion that finds no usable [toString] or
    [valueOf]. *)
Definition cannot_convert : Error :=
  newError "Cannot convert object to primitive value".

(** ToString, as applied by template literals.  There are no functions
    among these values, so an object with an own [toString] property has
    a [toString] that cannot be called; the inherited [valueOf] returns
    the object itself, and the conversion throws.  Every other object
    prints through the inherited [toString].  An array prints its
    elements joined by commas, [undefined] and [null] as nothing, and
    throws where an element does. *)
Fixpoint toString (v : Value) : Error + string :=
  match v with
  | JUndefined => inr "undefined"
  | JNull => inr "null"
  | JBool true => inr "true"
  | JBool false => inr "false"
  | JNum r => inr r
  | JStr s => inr s
  | JObj fields =>
      if has_key fields "toString" then inl cannot_convert
      else inr "[object Object]"
  | JArr l =>
      (fix join (l : list Value) : Error + string :=
         match l with
         | [] => inr ""
         | x :: tl =>
             let first := match x with
                          | JUndefined | JNull => inr ""
                          | _ => toString x
                          end in
             match first with
             | inl e => inl e
             | inr e =>
                 match tl with
                 | [] => inr e
                 | _ =>
                     match join tl with
                     | inl err => inl err
                     | inr rest => inr (e ++ "," ++ rest)
                     end
                 end
             end
         end) l
  end.

(** Writing a property: an existing key keeps its position. *)
Fixpoint set (o : Object) (k : string) (v : Value) : Object :=
  match o with
  | [] => [(k, v)]
  | (k', v') :: rest =>
      if String.eqb k' k then (k, v) :: rest else (k', v') :: set rest k v
  end.

(** [{ ...o, ...v }]: spreading a non-object (here: [false] or
    [undefined]) contributes nothing. *)
Definition spread (o : Object) (v : Value) : Object :=
  match v with
  | JObj fs => fold_left (fun acc kv => set acc (fst kv) (snd kv)) fs o
  | _ => o
  end.

(** [v.k] without optional chaining: reading a property of [undefined]
    or [null] throws a [TypeError]. *)
Definition member (v : Value) (k : string) : Error + Value :=
  match v with
  | JUndefined =>
      inl (newError ("Cannot read properties of undefined (reading '" ++ k ++ "')"))
  | JNull =>
      inl (newError ("Cannot read properties of null (reading '" ++ k ++ "')"))
  | _ => inr (get v k)
  end.

(** Induction over values that reaches the elements of arrays. *)
Section ValueInduction.

Variable P : Value -> Prop.
Hypothesis Hundefined : P JUndefined.
Hypothesis Hnull : P JNull.
Hypothesis Hbool : forall b, P (JBool b).
Hypothesis Hnum : forall r, P (JNum r).
Hypothesis Hstr : forall s, P (JStr s).
Hypothesis Hobj : forall fields, P (JObj fields).
Hypothesis Harr : forall items, Forall P items -> P (JArr items).


End ValueInduction.

End JS.

Import JS.

(* ================================================================== *)
(** ** config/env.ts *)
(* ================================================================== *)

(** [process.env]: variable name to string, absent names read as
    [undefined]. *)
Definition ProcessEnv := JS.Object.

Definition config (env : ProcessEnv) : Value :=
  JObj [ ("port", orElse (lookup env "PORT") (JNum "3000"));
        ("innovatrics",
         JObj [ ("baseUrl",
                orElse (lookup env "INNOVATRICS_BASE_URL")
                   (JStr "https://dot.innovatrics.com/identity"));
               ("apiKey",
                orElse (lookup env "INNOVATRICS_API_KEY")
                   (JStr "your_innovatrics_api_key"));
               ("apiSecret",
                orElse (lookup env "INNOVATRICS_API_SECRET")
                   (JStr "your_innovatrics_api_secret")) ]) ].

(* ================================================================== *)
(** ** The HTTP client and the provider *)
(* ================================================================== *)

Inductive Method : Type := GET | POST | PUT | DELETE.

(** An outbound request as the client instance issues it.  [data] is
    [JUndefined] when the call passes no body. *)
Record AxiosRequest : Type := mkRequest {
  method : Method;
  baseURL : Value;
  url : string;
  data : Value;
  headers : JS.Object
}.

(** [axios.create({...})]. *)
Record AxiosInstance : Type := mkInstance {
  inst_baseURL : Value;
  inst_headers : JS.Object;
  inst_timeout : Z;
  inst_proxy : bool;
  inst_rejectUnauthorized : bool;
  inst_keepAlive : bool
}.

(** What comes back from the wire: a response whose [data] the client
    hands over, or a rejection carrying the (possibly absent) provider
    response and the client's own message. *)
Inductive AxiosResult : Type :=
| Fulfilled (response_data : Value)
| Rejected (err : JS.Error).

(** The log of requests sent so far, oldest first. *)
Definition Log := list AxiosRequest.

(** The provider answers the last request of the log; it may depend on
    everything sent before. *)
Definition Provider := Log -> AxiosResult.

(** Computations that talk to the provider and may throw. *)
Definition M (A : Type) : Type := Provider -> Log -> (JS.Error + A) * Log.

Definition ret {A} (a : A) : M A := fun _ log => (inr a, log).

Definition throw {A} (e : JS.Error) : M A := fun _ log => (inl e, log).

Definition bind {A B} (m : M A) (k : A -> M B) : M B :=
  fun p log =>
    match m p log with
    | (inr a, log') => k a p log'
    | (inl e, log') => (inl e, log')
    end.

(** [try { m } catch (error) { h error }]. *)
Definition try_catch {A} (m : M A) (h : JS.Error -> M A) : M A :=
  fun p log =>
    match m p log with
    | (inr a, log') => (inr a, log')
    | (inl e, log') => h e p log'
    end.

(** Lifting a property read that may throw. *)
Definition liftE {A} (r : JS.Error + A) : M A :=
  match r with
  | inl e => throw e
  | inr a => ret a
  end.

Declare Scope js_scope.
Delimit Scope js_scope with js.
Notation "x <- m ;; k" := (bind m (fun x => k))
  (at level 61, m at next level, right associativity) : js_scope.
Notation "m ;;; k" := (bind m (fun _ => k))
  (at level 61, right associativity) : js_scope.
Local Open Scope js_scope.

(** Sending a request: it is appended to the log and the provider's
    answer to the extended log is awaited.  The response interceptor
    installed by the constructor only logs and re-rejects, so a rejection
    surfaces unchanged. *)
Definition send (r : AxiosRequest) : M Value :=
  fun p log =>
    let log' := (log ++ [r])%list in
    match p log' with
    | Fulfilled d => (inr d, log')
    | Rejected e => (inl e, log')
    end.

Definition request (c : AxiosInstance) (m : Method) (u : string) (d : Value)
  : AxiosRequest :=
  {| method := m; baseURL := inst_baseURL c; url := u; data := d;
     headers := inst_headers c |}.

(* ================================================================== *)
(** ** services/innovatricsClient.ts *)
(* ================================================================== *)

Module InnovatricsService.

(** The constructor: the client instance built from the configuration.
    It reads [config.innovatrics.bearerToken] and [config.innovatrics.host].
    The token it prints is read from the object literal of [config], none
    of whose values is an object, so the conversion in the template cannot
    throw and its failing branch is never taken. *)
Definition constructor (env : ProcessEnv) : AxiosInstance :=
  let innovatrics := get (config env) "innovatrics" in
  {| inst_baseURL := get innovatrics "baseUrl";
     inst_headers :=
       [ ("Authorization",
          match toString (get innovatrics "bearerToken") with
          | inr token => JStr ("Bearer " ++ token)
          | inl _ => JUndefined
          end);
         ("Content-Type", JStr "application/json");
         ("Host", get innovatrics "host") ];
     inst_timeout := 60000;
     inst_proxy := false;
     inst_rejectUnauthorized := false;
     inst_keepAlive := true |}.

(** What a [catch] reports about the error it caught:
    [error.response?.data?.message || error.message]. *)
Definition reason (error : JS.Error) : Value :=
  orElse (get (get (response error) "data") "message") (JStr (message error)).

(** The error that leaves a method's [catch]:
    [new Error(`${what}: ${error.response?.data?.message || error.message}`)],
    or the [TypeError] of the template when the reason cannot be printed. *)
Definition failed (what : string) (error : JS.Error) : JS.Error :=
  match toString (reason error) with
  | inr detail => newError (what ++ ": " ++ detail)
  | inl typeError => typeError
  end.

Definition rethrow {A} (what : string) (error : JS.Error) : M A :=
  throw (failed what error).

Section Methods.

Variable client : AxiosInstance.

(** [createCustomer()] declares no parameter: whatever a caller passes
    is dropped. *)
Definition createCustomer (arguments : list Value) : M Value :=
  try_catch
    (send (request client POST "/customers" JUndefined))
    (rethrow "Failed to create customer").

Definition storeCustomer (customerId payload : Value) : M Value :=
  try_catch
    (id <- liftE (toString customerId) ;;
     send (request client POST ("/customers/" ++ id ++ "/store") payload) ;;;
     ret JUndefined)
    (rethrow "Failed to store customer").

Definition updateCustomerOnboardingStatus
  (customerId status externalId : Value) : M Value :=
  storeCustomer customerId
    (JObj (spread [("onboardingStatus", status)]
             (if truthy externalId
              then JObj [("externalId", externalId)]
              else JObj []))).

Definition detectFace (imageData : Value) : M Value :=
  try_catch
    (send (request client POST "/faces" (JObj [("image", imageData)])))
    (rethrow "Failed to detect face").

Definition compareFaces (probeFaceId referenceData : Value) : M Value :=
  try_catch
    (id <- liftE (toString probeFaceId) ;;
     send (request client POST ("/faces/" ++ id ++ "/similarity")
             referenceData))
    (rethrow "Failed to compare faces").

Definition getFaceTemplate (faceId : Value) : M Value :=
  try_catch
    (id <- liftE (toString faceId) ;;
     send (request client GET ("/faces/" ++ id ++ "/face-template")
             JUndefined))
    (rethrow "Failed to get face template").

Definition checkFaceMask (faceId : Value) : M Value :=
  try_catch
    (id <- liftE (toString faceId) ;;
     send (request client GET ("/faces/" ++ id ++ "/face-mask") JUndefined))
    (rethrow "Failed to check face mask").

Definition createLivenessChallenge (customerId challengeRequest : Value)
  : M Value :=
  try_catch
    (id <- liftE (toString customerId) ;;
     send (request client PUT
             ("/customers/" ++ id ++ "/liveness/records/challenge")
             (orElse challengeRequest (JObj []))))
    (rethrow "Failed to create liveness challenge").

(** The URL is built before the body, so an unprintable customer id is
    met before an unreadable [livenessData]. *)
Definition submitLivenessData (customerId livenessData : Value) : M Value :=
  try_catch
    (id <- liftE (toString customerId) ;;
     image <- liftE (member livenessData "image") ;;
     send (request client PUT ("/customers/" ++ id ++ "/liveness")
             (JObj [ ("image", image);
                     ("challengeId", get livenessData "challengeId");
                     ("options",
                      orElse (get livenessData "options") (JObj [])) ])))
    (rethrow "Failed to submit liveness data").

Definition getSelfie (customerId : Value) : M Value :=
  try_catch
    (id <- liftE (toString customerId) ;;
     send (request client GET ("/api/v1/customers/" ++ id ++ "/selfie")
             JUndefined))
    (rethrow "Failed to get selfie").

(** [evaluateLiveness(customerId, options = {})].  The text its [catch]
    prints is [error.message], a string. *)
Definition evaluateLiveness (customerId options : Value) : M Value :=
  let options := match options with JUndefined => JObj [] | _ => options end in
  try_catch
    (challengeType <- liftE (member options "challengeType") ;;
     challenge <-
       createLivenessChallenge customerId
         (JObj [ ("challengeType", orElse challengeType (JStr "passive"));
                 ("options",
                  JObj [("deepfakeCheck", get options "deepfakeCheck")]) ]) ;;
     selfie <- getSelfie customerId ;;
     let livenessOptions :=
       if defined (get options "deepfakeCheck")
       then [("deepfakeCheck", get options "deepfakeCheck")]
       else [] in
     image <- liftE (member selfie "image") ;;
     challengeId <- liftE (member challenge "challengeId") ;;
     result <-
       submitLivenessData customerId
         (JObj [ ("image", image);
                 ("challengeId", challengeId);
                 ("options", JObj livenessOptions) ]) ;;
     confidence <- liftE (member result "confidence") ;;
     ret (JObj
            (spread
               (spread
                  [ ("confidence", confidence);
                    ("status", get result "status") ]
                  (if defined (get result "isDeepfake")
                   then JObj [("isDeepfake", get result "isDeepfake")]
                   else JBool false))
               (if defined (get result "deepfakeConfidence")
                then JObj [("deepfakeConfidence",
                            get result "deepfakeConfidence")]
                else JBool false))))
    (fun error =>
       throw (newError ("Liveness evaluation failed: " ++ message error))).

Definition deleteLivenessData (customerId : Value) : M Value :=
  try_catch
    (id <- liftE (toString customerId) ;;
     send (request client DELETE ("/api/v1/customers/" ++ id ++ "/liveness")
             JUndefined) ;;;
     ret JUndefined)
    (rethrow "Failed to delete liveness data").

Definition verifyDocument (documentData : Value) : M Value :=
  try_catch
    (frontImage <- liftE (member documentData "frontImage") ;;
     created <-
       send (request client POST "/documents"
               (JObj [ ("frontImage", frontImage);
                       ("backImage", get documentData "backImage");
                       ("documentType",
                        orElse (get documentData "documentType")
                               (JStr "id_card")) ])) ;;
     createdId <- liftE (member created "id") ;;
     id <- liftE (toString createdId) ;;
     send (request client POST ("/documents/" ++ id ++ "/verify") JUndefined))
    (rethrow "Failed to verify document").

Definition uploadSelfie (customerId selfieData : Value) : M Value :=
  try_catch
    (id <- liftE (toString customerId) ;;
     send (request client PUT ("/customers/" ++ id ++ "/selfie")
             (JObj [("image", selfieData)])))
    (rethrow "Failed to upload selfie").

Definition deleteSelfie (customerId : Value) : M Value :=
  try_catch
    (id <- liftE (toString customerId) ;;
     send (request client DELETE ("/api/v1/customers/" ++ id ++ "/selfie")
             JUndefined) ;;;
     ret JUndefined)
    (rethrow "Failed to delete selfie").

(** The per-request header overrides the instance's [Content-Type]; the
    other instance headers stay. *)
Definition uploadBinaryImage (customerId imageBuffer : Value)
  (endpoint : string) : M Value :=
  try_catch
    (send {| method := PUT; baseURL := inst_baseURL client; url := endpoint;
             data := imageBuffer;
             headers := set (inst_headers client) "Content-Type"
                          (JStr "application/octet-stream") |})
    (rethrow "Failed to upload binary image").

End Methods.

End InnovatricsService.

(* ================================================================== *)
(** ** controllers/verificationController.ts *)
(* ================================================================== *)

(** The part of an Express request the handlers read.  Route parameters
    are strings cut out of the path; the body is parsed JSON. *)
Record Request : Type :=
  mkReq { params : list (string * string); body : JS.Object }.

Fixpoint route_param (ps : list (string * string)) (k : string)
  : option string :=
  match ps with
  | [] => None
  | (k', s) :: rest => if String.eqb k' k then Some s else route_param rest k
  end.

(** [req.params.k]: the string, or [undefined] for a name the route does
    not have. *)
Definition param (req : Request) (k : string) : Value :=
  match route_param (params req) k with
  | Some s => JStr s
  | None => JUndefined
  end.

(** What [req.params.k] prints as in a URL. *)
Definition param_text (req : Request) (k : string) : string :=
  match route_param (params req) k with
  | Some s => s
  | None => "undefined"
  end.

(** What a handler answers with: the [ResponseHandler] method it calls
    and the arguments it passes (after [res]).  [utils/responseHandler.ts]
    itself is not among the sources, so a handler's answer is the call it
    makes. *)
Inductive Reply : Type :=
| success (payload : Value) (msg : string)
| error (msg : string) (statusCode : Z) (detail : string)
| validationError (errors : list string).

(** A handler runs against the provider and the log and always answers. *)
Definition Handler := Provider -> Log -> Reply * Log.

(** [try { ... return reply } catch (error) { return h error }]. *)
Definition try_respond (m : M Reply) (h : JS.Error -> Reply) : Handler :=
  fun p log =>
    match m p log with
    | (inr r, log') => (r, log')
    | (inl e, log') => (h e, log')
    end.

Module VerificationController.

Section Handlers.

(** [const innovatricsClient = new InnovatricsService()]: one client for
    the process, built from the process environment. *)
Variable env : ProcessEnv.

Definition innovatricsClient : AxiosInstance :=
  InnovatricsService.constructor env.

(** [now] stands for the [new Date()] taken when the reply is built. *)
Definition createCustomer (now : Value) (req : Request) : Handler :=
  try_respond
    (let userId := lookup (body req) "userId" in
     if negb (truthy userId)
     then ret (validationError ["userId is required"])
     else
       customer <-
         InnovatricsService.createCustomer innovatricsClient
           [JObj [ ("externalId", userId);
                   ("onboardingStatus", JStr "IN_PROGRESS") ]] ;;
       id <- liftE (member customer "id") ;;
       ret (success
              (JObj [ ("customerId", id);
                      ("status", JStr "created");
                      ("createdAt", now);
                      ("userId", userId) ])
              "Customer created successfully"))
    (fun e => error "Failed to create customer" 500 (message e)).

Definition uploadDocument (req : Request) : Handler :=
  try_respond
    (let customerId := param req "customerId" in
     let frontImage := lookup (body req) "frontImage" in
     let backImage := lookup (body req) "backImage" in
     let documentType := lookup (body req) "documentType" in
     if negb (truthy frontImage)
     then ret (validationError ["frontImage is required"])
     else
       documentResult <-
         InnovatricsService.verifyDocument innovatricsClient
           (JObj [ ("frontImage", frontImage);
                   ("backImage", backImage);
                   ("documentType", documentType) ]) ;;
       ret (success
              (JObj [ ("customerId", customerId);
                      ("documentResult", documentResult);
                      ("status", JStr "document_verified") ])
              "Document verified successfully"))
    (fun e => error "Failed to verify document" 500 (message e)).

Definition performLivenessCheck (req : Request) : Handler :=
  try_respond
    (let customerId := param req "customerId" in
     let image := lookup (body req) "image" in
     let challengeId := lookup (body req) "challengeId" in
     let challengeType := lookup (body req) "challengeType" in
     if negb (truthy image)
     then ret (validationError ["image is required"])
     else
       finalChallengeId <-
         (if negb (truthy challengeId)
          then
            challenge <-
              InnovatricsService.createLivenessChallenge innovatricsClient
                customerId
                (JObj [("challengeType",
                        orElse challengeType (JStr "passive"))]) ;;
            liftE (member challenge "challengeId")
          else ret challengeId) ;;
       livenessResult <-
         InnovatricsService.submitLivenessData innovatricsClient customerId
           (JObj [ ("image", image); ("challengeId", finalChallengeId) ]) ;;
       ret (success
              (JObj [ ("customerId", customerId);
                      ("livenessResult", livenessResult);
                      ("status", JStr "liveness_checked") ])
              "Liveness check performed successfully"))
    (fun e => error "Failed to perform liveness check" 500 (message e)).

Definition performFaceDetection (req : Request) : Handler :=
  try_respond
    (let customerId := param req "customerId" in
     let image := lookup (body req) "image" in
     if negb (truthy image)
     then ret (validationError ["image is required"])
     else
       faceResult <- InnovatricsService.detectFace innovatricsClient image ;;
       faceId <- liftE (member faceResult "id") ;;
       maskResult <- InnovatricsService.checkFaceMask innovatricsClient faceId ;;
       ret (success
              (JObj [ ("customerId", customerId);
                      ("faceResult", faceResult);
                      ("maskResult", maskResult);
                      ("status", JStr "face_detected") ])
              "Face detection and mask check performed successfully"))
    (fun e => error "Failed to detect face" 500 (message e)).

Definition compareFaces (req : Request) : Handler :=
  try_respond
    (let customerId := param req "customerId" in
     let probeFaceId := lookup (body req) "probeFaceId" in
     let referenceFace := lookup (body req) "referenceFace" in
     let referenceFaceTemplate := lookup (body req) "referenceFaceTemplate" in
     if negb (truthy probeFaceId)
     then ret (validationError ["probeFaceId is required"])
     else if negb (truthy referenceFace) && negb (truthy referenceFaceTemplate)
     then ret (validationError
                 ["Either referenceFace or referenceFaceTemplate is required"])
     else
       similarityResult <-
         InnovatricsService.compareFaces innovatricsClient probeFaceId
           (JObj [ ("referenceFace", referenceFace);
                   ("referenceFaceTemplate", referenceFaceTemplate) ]) ;;
       ret (success
              (JObj [ ("customerId", customerId);
                      ("similarityResult", similarityResult);
                      ("status", JStr "faces_compared") ])
              "Face comparison performed successfully"))
    (fun e => error "Failed to compare faces" 500 (message e)).

Definition createLivenessChallenge (req : Request) : Handler :=
  try_respond
    (let customerId := param req "customerId" in
     let challengeType := lookup (body req) "challengeType" in
     challenge <-
       InnovatricsService.createLivenessChallenge innovatricsClient customerId
         (JObj [("challengeType", challengeType)]) ;;
     ret (success
            (JObj [ ("customerId", customerId);
                    ("challenge", challenge);
                    ("status", JStr "challenge_created") ])
            "Liveness challenge created successfully"))
    (fun e => error "Failed to create liveness challenge" 500 (message e)).

Definition uploadSelfie (req : Request) : Handler :=
  try_respond
    (let customerId := param req "customerId" in
     let image := lookup (body req) "image" in
     if negb (truthy image)
     then ret (validationError ["image is required"])
     else
       selfieResult <-
         InnovatricsService.uploadSelfie innovatricsClient customerId image ;;
       ret (success
              (JObj [ ("customerId", customerId);
                      ("selfieResult", selfieResult);
                      ("status", JStr "selfie_uploaded") ])
              "Selfie uploaded successfully"))
    (fun e => error "Failed to upload selfie" 500 (message e)).

Definition getSelfie (req : Request) : Handler :=
  try_respond
    (let customerId := param req "customerId" in
     selfie <- InnovatricsService.getSelfie innovatricsClient customerId ;;
     ret (success
            (JObj [ ("customerId", customerId);
                    ("selfie", selfie);
                    ("status", JStr "selfie_retrieved") ])
            "Selfie retrieved successfully"))
    (fun e => error "Failed to retrieve selfie" 500 (message e)).

(** "For now, return a basic status": no provider call, no stored
    state consulted. *)
Definition getCustomerStatus (req : Request) : Handler :=
  try_respond
    (let customerId := param req "customerId" in
     ret (success
            (JObj [ ("customerId", customerId);
                    ("status", JStr "active");
                    ("onboardingStatus", JStr "IN_PROGRESS") ])
            "Customer status retrieved successfully"))
    (fun e => error "Failed to get customer status" 500 (message e)).

Definition deleteCustomer (req : Request) : Handler :=
  try_respond
    (let customerId := param req "customerId" in
     InnovatricsService.deleteSelfie innovatricsClient customerId ;;;
     InnovatricsService.deleteLivenessData innovatricsClient customerId ;;;
     ret (success
            (JObj [ ("customerId", customerId); ("deleted", JBool true) ])
            "Customer data deleted successfully"))
    (fun e => error "Failed to delete customer data" 500 (message e)).

End Handlers.

End VerificationController.

(* ================================================================== *)
(** ** routes/verificationRoutes.ts *)
(* ================================================================== *)

(** The [body().custom(...)] check of [validateFaceComparison]: it
    throws when neither reference is given and passes otherwise. *)
Definition validateFaceComparison_custom (reqBody : JS.Object)
  : JS.Error + bool :=
  let referenceFace := lookup reqBody "referenceFace" in
  let referenceFaceTemplate := lookup reqBody "referenceFaceTemplate" in
  if negb (truthy referenceFace) && negb (truthy referenceFaceTemplate)
  then inl (newError "Either referenceFace or referenceFaceTemplate is required")
  else inr true.

(* ================================================================== *)
(** ** A sample provider and sample requests *)
(* ================================================================== *)

Module Sample.

Definition env : ProcessEnv :=
  [ ("INNOVATRICS_BASE_URL", JStr "https://dis.example.test/identity");
    ("INNOVATRICS_API_KEY", JStr "key-1");
    ("INNOVATRICS_API_SECRET", JStr "secret-1") ].

Definition last_request (log : Log) : option AxiosRequest :=
  match rev log with
  | r :: _ => Some r
  | [] => None
  end.

Definition method_eqb (a b : Method) : bool :=
  match a, b with
  | GET, GET | POST, POST | PUT, PUT | DELETE, DELETE => true
  | _, _ => false
  end.

Definition hits (m : Method) (u : string) (r : AxiosRequest) : bool :=
  method_eqb (method r) m && String.eqb (url r) u.

(** A provider on which every stage of customer [cust_1] goes well. *)
Definition provider : Provider := fun log =>
  match last_request log with
  | None => Rejected (newError "no request")
  | Some r =>
      if hits POST "/customers" r then
        Fulfilled (JObj [ ("id", JStr "cust_1");
                          ("links", JObj [("self", JStr "/customers/cust_1")]) ])
      else if hits POST "/documents" r then
        Fulfilled (JObj [("id", JStr "doc_1")])
      else if hits POST "/documents/doc_1/verify" r then
        Fulfilled (JObj [ ("documentType", JStr "passport");
                          ("issuingCountry", JStr "US");
                          ("documentNumber", JStr "P123456789");
                          ("expirationDate", JStr "2030-12-31");
                          ("verificationStatus", JStr "verified");
                          ("confidence", JNum "0.98") ])
      else if hits PUT "/customers/cust_1/liveness/records/challenge" r then
        Fulfilled (JObj [ ("challengeId", JStr "challenge_7");
                          ("challengeType", JStr "passive");
                          ("instructions", JStr "") ])
      else if hits PUT "/customers/cust_1/liveness" r then
        Fulfilled (JObj [ ("confidence", JNum "0.95");
                          ("status", JStr "live") ])
      else if hits POST "/faces" r then
        Fulfilled (JObj [ ("id", JStr "face_1");
                          ("detection", JObj [("score", JNum "0.98")]) ])
      else if hits GET "/faces/face_1/face-mask" r then
        Fulfilled (JObj [("score", JNum "0.02")])
      else if hits POST "/faces/face_1/similarity" r then
        Fulfilled (JObj [ ("score", JNum "0.97");
                          ("verificationStatus", JStr "matched") ])
      else if hits POST "/faces/face_unseen/similarity" r then
        Fulfilled (JObj [("score", JNum "0.41")])
      else if hits DELETE "/api/v1/customers/cust_1/selfie" r then
        Fulfilled (JStr "")
      else if hits DELETE "/api/v1/customers/cust_1/liveness" r then
        Fulfilled (JStr "")
      else
        Rejected {| response :=
                      JObj [ ("status", JNum "404");
                             ("data", JObj [("message", JStr "Not found")]) ];
                    message := "Request failed with status code 404" |}
  end.

(** The provider's rejection of one request, with a structured body. *)
Definition rejection (text : string) : AxiosResult :=
  Rejected {| response :=
                JObj [ ("status", JNum "500");
                       ("data", JObj [("message", JStr text)]) ];
              message := "Request failed with status code 500" |}.

(** As [provider], but the selfie cannot be deleted. *)
Definition provider_selfie_stuck : Provider := fun log =>
  match last_request log with
  | Some r =>
      if hits DELETE "/api/v1/customers/cust_1/selfie" r
      then rejection "selfie store unavailable"
      else provider log
  | None => provider log
  end.

(** As [provider], but the mask check fails. *)
Definition provider_mask_down : Provider := fun log =>
  match last_request log with
  | Some r =>
      if hits GET "/faces/face_1/face-mask" r
      then rejection "mask model unavailable"
      else provider log
  | None => provider log
  end.

(** No connection at all: every call fails without a response. *)
Definition provider_unreachable : Provider := fun _ =>
  Rejected (newError "connect ECONNREFUSED").

Definition customer : list (string * string) := [("customerId", "cust_1")].

Definition req (fields : JS.Object) : Request :=
  {| params := customer; body := fields |}.

Definition startReq : Request :=
  {| params := []; body := [("userId", JStr "user123")] |}.

Definition documentReq : Request :=
  req [ ("frontImage", JStr "ZnJvbnQ="); ("backImage", JStr "YmFjaw==");
        ("documentType", JStr "passport") ].

Definition livenessReq : Request := req [("image", JStr "c2VsZmll")].

Definition detectReq : Request := req [("image", JStr "c2VsZmll")].

Definition compareReq : Request :=
  req [ ("probeFaceId", JStr "face_1");
        ("referenceFace", JStr "/api/v1/faces/ref_456") ].

Definition compareUnseenReq : Request :=
  req [ ("probeFaceId", JStr "face_unseen");
        ("referenceFace", JStr "/api/v1/faces/ref_456") ].

Definition statusReq : Request := req [].

End Sample.

Import VerificationController.

(* ================================================================== *)
(** ** Vocabulary of the statements *)
(* ================================================================== *)

(** The methods of [InnovatricsService], one constructor per method, so
    that a statement can range over all of them. *)
Inductive AdapterCall : Type :=
| CreateCustomer (arguments : list Value)
| StoreCustomer (customerId payload : Value)
| UpdateCustomerOnboardingStatus (customerId status externalId : Value)
| DetectFace (imageData : Value)
| CompareFaces (probeFaceId referenceData : Value)
| GetFaceTemplate (faceId : Value)
| CheckFaceMask (faceId : Value)
| CreateLivenessChallenge (customerId challengeRequest : Value)
| SubmitLivenessData (customerId livenessData : Value)
| EvaluateLiveness (customerId options : Value)
| DeleteLivenessData (customerId : Value)
| VerifyDocument (documentData : Value)
| UploadSelfie (customerId selfieData : Value)
| GetSelfie (customerId : Value)
| DeleteSelfie (customerId : Value)
| UploadBinaryImage (customerId imageBuffer : Value) (endpoint : string).

Definition perform (client : AxiosInstance) (c : AdapterCall) : M Value :=
  match c with
  | CreateCustomer args => InnovatricsService.createCustomer client args
  | StoreCustomer i pl => InnovatricsService.storeCustomer client i pl
  | UpdateCustomerOnboardingStatus i st ext =>
      InnovatricsService.updateCustomerOnboardingStatus client i st ext
  | DetectFace img => InnovatricsService.detectFace client img
  | CompareFaces f ref => InnovatricsService.compareFaces client f ref
  | GetFaceTemplate f => InnovatricsService.getFaceTemplate client f
  | CheckFaceMask f => InnovatricsService.checkFaceMask client f
  | CreateLivenessChallenge i cr =>
      InnovatricsService.createLivenessChallenge client i cr
  | SubmitLivenessData i d => InnovatricsService.submitLivenessData client i d
  | EvaluateLiveness i o => InnovatricsService.evaluateLiveness client i o
  | DeleteLivenessData i => InnovatricsService.deleteLivenessData client i
  | VerifyDocument d => InnovatricsService.verifyDocument client d
  | UploadSelfie i d => InnovatricsService.uploadSelfie client i d
  | GetSelfie i => InnovatricsService.getSelfie client i
  | DeleteSelfie i => InnovatricsService.deleteSelfie client i
  | UploadBinaryImage i b e => InnovatricsService.uploadBinaryImage client i b e
  end.

(** The handlers of [VerificationController], one constructor each. *)
Inductive Operation : Type :=
| OpCreateCustomer
| OpUploadDocument
| OpPerformLivenessCheck
| OpPerformFaceDetection
| OpCompareFaces
| OpCreateLivenessChallenge
| OpUploadSelfie
| OpGetSelfie
| OpGetCustomerStatus
| OpDeleteCustomer.

Definition handle (env : ProcessEnv) (now : Value) (op : Operation)
  : Request -> Handler :=
  match op with
  | OpCreateCustomer => createCustomer env now
  | OpUploadDocument => uploadDocument env
  | OpPerformLivenessCheck => performLivenessCheck env
  | OpPerformFaceDetection => performFaceDetection env
  | OpCompareFaces => compareFaces env
  | OpCreateLivenessChallenge => createLivenessChallenge env
  | OpUploadSelfie => uploadSelfie env
  | OpGetSelfie => getSelfie env
  | OpGetCustomerStatus => getCustomerStatus
  | OpDeleteCustomer => deleteCustomer env
  end.

(** The message each handler's [catch] passes to [ResponseHandler.error]. *)
Definition failure_message (op : Operation) : string :=
  match op with
  | OpCreateCustomer => "Failed to create customer"
  | OpUploadDocument => "Failed to verify document"
  | OpPerformLivenessCheck => "Failed to perform liveness check"
  | OpPerformFaceDetection => "Failed to detect face"
  | OpCompareFaces => "Failed to compare faces"
  | OpCreateLivenessChallenge => "Failed to create liveness challenge"
  | OpUploadSelfie => "Failed to upload selfie"
  | OpGetSelfie => "Failed to retrieve selfie"
  | OpGetCustomerStatus => "Failed to get customer status"
  | OpDeleteCustomer => "Failed to delete customer data"
  end.

(** The messages each handler's own input checks pass to
    [ResponseHandler.validationError]. *)
Definition validation_messages (op : Operation) : list string :=
  match op with
  | OpCreateCustomer => ["userId is required"]
  | OpUploadDocument => ["frontImage is required"]
  | OpPerformLivenessCheck | OpPerformFaceDetection | OpUploadSelfie =>
      ["image is required"]
  | OpCompareFaces =>
      [ "probeFaceId is required";
        "Either referenceFace or referenceFaceTemplate is required" ]
  | _ => []
  end.

Definition is_success (r : Reply) : bool :=
  match r with success _ _ => true | _ => false end.

(** The replies a handler body returns by itself, without its [catch]:
    a success, or a validation error with one message out of [vs]. *)
Definition answers_within (vs : list string) (m : M Reply) : Prop :=
  forall p log r log',
    m p log = (inr r, log') ->
    match r with
    | success _ _ => True
    | validationError errors => exists v, In v vs /\ errors = [v]
    | error _ _ _ => False
    end.

(** The replies of a whole handler: as above, or the error reply of its
    [catch], with the handler's fixed message and status 500. *)
Definition reply_shape (vs : list string) (m : string) (r : Reply) : Prop :=
  match r with
  | success _ _ => True
  | validationError errors => exists v, In v vs /\ errors = [v]
  | error m' code _ => m' = m /\ code = 500%Z
  end.

(** The provider calls a computation adds to the log all satisfy [P]. *)
Definition emits {A} (P : AxiosRequest -> Prop) (m : M A) : Prop :=
  forall p log,
    exists new, snd (m p log) = (log ++ new)%list /\ Forall P new.

(** The same for a handler. *)
Definition handler_emits (P : AxiosRequest -> Prop) (h : Handler) : Prop :=
  forall p log,
    exists new, snd (h p log) = (log ++ new)%list /\ Forall P new.

(** The environment with the credential pair replaced. *)
Definition with_credentials (env : ProcessEnv) (apiKey apiSecret : Value)
  : ProcessEnv :=
  set (set env "INNOVATRICS_API_KEY" apiKey) "INNOVATRICS_API_SECRET" apiSecret.

(** [faceId] was produced by an earlier detection: some request of the
    log is a POST to [/faces] that the provider answered with that id. *)
Definition produced_by_detectFace (p : Provider) (log : Log) (faceId : Value)
  : Prop :=
  exists before r after d,
    log = (before ++ r :: after)%list
    /\ method r = POST /\ url r = "/faces"
    /\ p (before ++ [r])%list = Fulfilled d
    /\ get d "id" = faceId.

Inductive OverallStatus : Type := completed | in_progress.

(** The error kinds in the words of the specification. *)
Inductive SpecErrorKind : Type :=
| UnknownSubject
| PreconditionFailed
| ProviderUnavailable
| ProviderRejected
| ProviderTimeout
| NormalizationFailure.

(** The aggregation rule in the words of the specification: [completed]
    exactly when the document, liveness and face-match artifacts are all
    present and report [verified], [live] and [matched]. *)
Definition spec_overallStatus (document liveness faceMatch : option string)
  : OverallStatus :=
  match document, liveness, faceMatch with
  | Some d, Some l, Some f =>
      if String.eqb d "verified" && String.eqb l "live"
         && String.eqb f "matched"
      then completed else in_progress
  | _, _, _ => in_progress
  end.

(** The outcome an artifact-carrying reply reports under [field]: the
    [verificationStatus] of the provider's result, or its [status]. *)
Definition outcome (field : string) (r : Reply) : option string :=
  match r with
  | success payload _ =>
      let artifact := get payload field in
      match orElse (get artifact "verificationStatus") (get artifact "status") with
      | JStr s => Some s
      | _ => None
      end
  | _ => None
  end.

(** What the status reply reports.  Its only progress field is
    [onboardingStatus], with the values of [CustomerStoreRequest]:
    ['IN_PROGRESS'] and ['FINISHED']. *)
Definition overallStatus (statusReply : Reply) : option OverallStatus :=
  match statusReply with
  | success payload _ =>
      match get payload "onboardingStatus" with
      | JStr s =>
          if String.eqb s "IN_PROGRESS" then Some in_progress
          else if String.eqb s "FINISHED" then Some completed
          else None
      | _ => None
      end
  | _ => None
  end.

(** The workflow of the specification's scenario, run in order against
    one provider: document, liveness, face detection, face comparison,
    status.  The replies are returned in that order. *)
Definition run_workflow (env : ProcessEnv) (p : Provider)
  (doc live detect compare status : Request) (log : Log)
  : (Reply * Reply * Reply * Reply * Reply) * Log :=
  let '(r1, log1) := uploadDocument env doc p log in
  let '(r2, log2) := performLivenessCheck env live p log1 in
  let '(r3, log3) := performFaceDetection env detect p log2 in
  let '(r4, log4) := compareFaces env compare p log3 in
  let '(r5, log5) := getCustomerStatus status p log4 in
  ((r1, r2, r3, r4, r5), log5).

(* ================================================================== *)
(** ** routes/verificationRoutes.ts: the validation gate *)
(* ================================================================== *)

(** How a route ends: the gate answers by itself, the controller
    answers, or an exception leaves the middleware. *)
Inductive RouteOutcome : Type :=
| Direct (statusCode : Z) (json : Value)
| Handled (r : Reply)
| Thrown (e : JS.Error).

(** [errors.map((error) => error.msg)]: the first element that is
    [undefined] or [null] throws. *)
Fixpoint map_msg (errors : list Value) : JS.Error + list Value :=
  match errors with
  | [] => inr []
  | err :: rest =>
      match member err "msg" with
      | inl e => inl e
      | inr m =>
          match map_msg rest with
          | inl e => inl e
          | inr ms => inr (m :: ms)
          end
      end
  end.

(** [handleValidationErrors] followed by the controller it guards.
    [validationErrors] is [req.validationErrors], taken to be absent or
    an array; [None] reads as the empty array ([|| []]). *)
Definition handleValidationErrors (validationErrors : option (list Value))
  (next : Handler) : Provider -> Log -> RouteOutcome * Log :=
  fun p log =>
    let errors := match validationErrors with Some l => l | None => [] end in
    if (0 <? Z.of_nat (length errors))%Z
    then
      match map_msg errors with
      | inl e => (Thrown e, log)
      | inr msgs =>
          (Direct 400
             (JObj [ ("success", JBool false);
                     ("message", JStr "Validation failed");
                     ("errors", JArr msgs) ]),
           log)
      end
    else let '(r, log') := next p log in (Handled r, log').

(* ================================================================== *)
(** ** app.ts: the global error handler *)
(* ================================================================== *)

Module App.

Record Response : Type := mkResponse { status : Value; json : Value }.

(** [v === 'text']. *)
Definition strictly_equals (v : Value) (text : string) : bool :=
  match v with
  | JStr s => String.eqb s text
  | _ => false
  end.

(** The last middleware of the application.  Express only hands it a
    truthy [error], on which the three property reads cannot throw. *)
Definition errorHandler (env : ProcessEnv) (err : Value) : Response :=
  {| status := orElse (get err "status") (JNum "500");
     json :=
       JObj (spread
               [ ("success", JBool false);
                 ("message",
                  orElse (get err "message")
                         (JStr "Internal server error")) ]
               (if strictly_equals (lookup env "NODE_ENV") "development"
                then JObj [("stack", get err "stack")]
                else JBool false)) |}.

(** The environment name the start-up banner prints:
    [process.env.NODE_ENV || 'development']. *)
Definition bannerEnvironment (env : ProcessEnv) : JS.Error + string :=
  toString (orElse (lookup env "NODE_ENV") (JStr "development")).

End App.

(* ================================================================== *)
(** ** Further vocabulary *)
(* ================================================================== *)


(** The number of provider requests a service method makes when every
    step goes well. *)
Definition requests_of (c : AdapterCall) : nat :=
  match c with
  | VerifyDocument _ => 2
  | EvaluateLiveness _ _ => 3
  | _ => 1
  end.

(** [m] adds at most [n] requests to the log, and exactly [n] when it
    returns normally. *)
Definition calls {A} (n : nat) (m : M A) : Prop :=
  forall p log,
    exists new,
      snd (m p log) = (log ++ new)%list
      /\ length new <= n
      /\ (forall a, fst (m p log) = inr a -> length new = n).



(** The body field each handler insists on, if any. *)
Definition required_input (op : Operation) : option string :=
  match op with
  | OpCreateCustomer => Some "userId"
  | OpUploadDocument => Some "frontImage"
  | OpPerformLivenessCheck | OpPerformFaceDetection | OpUploadSelfie =>
      Some "image"
  | OpCompareFaces => Some "probeFaceId"
  | _ => None
  end.

(** The [status] tag each handler puts in its success payload; the
    deletion reply has none. *)
Definition status_tag (op : Operation) : option string :=
  match op with
  | OpCreateCustomer => Some "created"
  | OpUploadDocument => Some "document_verified"
  | OpPerformLivenessCheck => Some "liveness_checked"
  | OpPerformFaceDetection => Some "face_detected"
  | OpCompareFaces => Some "faces_compared"
  | OpCreateLivenessChallenge => Some "challenge_created"
  | OpUploadSelfie => Some "selfie_uploaded"
  | OpGetSelfie => Some "selfie_retrieved"
  | OpGetCustomerStatus => Some "active"
  | OpDeleteCustomer => None
  end.

(** A handler adds at most [n] requests to the log. *)
Definition at_most (n : nat) (h : Handler) : Prop :=
  forall p log,
    exists new, snd (h p log) = (log ++ new)%list /\ length new <= n.

(** The same for a computation. *)
Definition sends_at_most {A} (n : nat) (m : M A) : Prop :=
  forall p log,
    exists new, snd (m p log) = (log ++ new)%list /\ length new <= n.

(** The most provider requests one call of each handler can cause. *)
Definition request_bound (op : Operation) : nat :=
  match op with
  | OpGetCustomerStatus => 0
  | OpUploadDocument | OpPerformLivenessCheck | OpPerformFaceDetection
  | OpDeleteCustomer => 2
  | _ => 1
  end.

(** A handler body that never returns a validation reply. *)
Definition never_validation (m : M Reply) : Prop :=
  forall p log errors log', m p log <> (inr (validationError errors), log').

(** Every success payload a handler body returns satisfies [Q]. *)
Definition success_payloads (Q : Value -> Prop) (m : M Reply) : Prop :=
  forall p log payload msg log',
    m p log = (inr (success payload msg), log') -> Q payload.

(* ================================================================== *)
(** ** What a computation adds to the log *)
(* ================================================================== *)

Section Emits.

Context {A B : Type} (P : AxiosRequest -> Prop).

Lemma emits_ret (a : A) : emits P (ret a).
Proof.
  intros p log. exists []. cbn. rewrite app_nil_r. auto.
Qed.

Lemma emits_throw (e : JS.Error) : emits P (@throw A e).
Proof.
  intros p log. exists []. cbn. rewrite app_nil_r. auto.
Qed.

Lemma emits_liftE (r : JS.Error + A) : emits P (liftE r).
Proof.
  destruct r; [apply emits_throw | apply emits_ret].
Qed.

Lemma emits_bind (m : M A) (k : A -> M B) :
  emits P m -> (forall a, emits P (k a)) -> emits P (bind m k).
Proof.
  intros Hm Hk p log. unfold bind.
  destruct (Hm p log) as [n1 [E1 F1]].
  destruct (m p log) as [[e | a] log1]; cbn in E1; subst log1.
  - exists n1. auto.
  - destruct (Hk a p (log ++ n1)%list) as [n2 [E2 F2]].
    exists (n1 ++ n2)%list. rewrite E2, app_assoc. split; [reflexivity |].
    apply Forall_app; auto.
Qed.

Lemma emits_try_catch (m : M A) (h : JS.Error -> M A) :
  emits P m -> (forall e, emits P (h e)) -> emits P (try_catch m h).
Proof.
  intros Hm Hh p log. unfold try_catch.
  destruct (Hm p log) as [n1 [E1 F1]].
  destruct (m p log) as [[e | a] log1]; cbn in E1; subst log1.
  - destruct (Hh e p (log ++ n1)%list) as [n2 [E2 F2]].
    exists (n1 ++ n2)%list. rewrite E2, app_assoc. split; [reflexivity |].
    apply Forall_app; auto.
  - exists n1. auto.
Qed.

End Emits.

Lemma emits_send (P : AxiosRequest -> Prop) (r : AxiosRequest) :
  P r -> emits P (send r).
Proof.
  intros H p log. exists [r]. unfold send.
  destruct (p (log ++ [r])%list); cbn; auto.
Qed.

Lemma emits_rethrow {A} (P : AxiosRequest -> Prop) what e :
  emits P (@InnovatricsService.rethrow A what e).
Proof. apply emits_throw. Qed.

Lemma emits_try_respond (P : AxiosRequest -> Prop) (m : M Reply) h :
  emits P m -> handler_emits P (try_respond m h).
Proof.
  intros Hm p log. unfold try_respond.
  destruct (Hm p log) as [n [E F]].
  destruct (m p log) as [[e | a] log1]; cbn in *; eauto.
Qed.

Create HintDb emits.
#[local] Hint Resolve emits_ret emits_throw emits_liftE emits_rethrow : emits.

(** Walks a method body: binds, try/catch and branches are split, and
    each [send] leaves the property of its request as a goal. *)
Ltac walk :=
  repeat first
    [ apply emits_ret | apply emits_throw | apply emits_liftE
    | apply emits_rethrow
    | apply emits_try_catch; [| intro]
    | apply emits_bind; [| intro]
    | apply emits_send
    | match goal with
      | |- emits _ (if ?b then _ else _) => destruct b
      | |- emits _ (match ?v with _ => _ end) => destruct v
      end ].

(* ================================================================== *)
(** ** Property lists *)
(* ================================================================== *)

Lemma lookup_set_other (o : JS.Object) (k k' : string) (v : Value) :
  k <> k' -> lookup (set o k v) k' = lookup o k'.
Proof.
  intros Hk. induction o as [| [k0 v0] o IH]; cbn.
  - destruct (String.eqb_spec k k'); [contradiction | reflexivity].
  - destruct (String.eqb_spec k0 k) as [-> | Hne]; cbn.
    + destruct (String.eqb_spec k k'); [contradiction | reflexivity].
    + rewrite IH. reflexivity.
Qed.

Lemma constructor_ignores_credentials (env : ProcessEnv) (k s : Value) :
  InnovatricsService.constructor (with_credentials env k s)
  = InnovatricsService.constructor env.
Proof.
  unfold InnovatricsService.constructor, with_credentials, config. cbn.
  rewrite !lookup_set_other by discriminate. reflexivity.
Qed.

(* ================================================================== *)
(** ** Printing values *)
(* ================================================================== *)

(** The token the constructor prints is always there to print: the
    failing branch of its template is never taken. *)
Lemma constructor_token_is_printed (env : ProcessEnv) :
  toString (get (get (config env) "innovatrics") "bearerToken")
  = inr "undefined".
Proof. reflexivity. Qed.

Lemma toString_param (req : Request) (k : string) :
  toString (param req k) = inr (param_text req k).
Proof.
  unfold param, param_text. destruct (route_param (params req) k); reflexivity.
Qed.



Lemma failed_printable (what : string) (e : JS.Error) (detail : string) :
  toString (InnovatricsService.reason e) = inr detail ->
  InnovatricsService.failed what e = newError (what ++ ": " ++ detail).
Proof.
  intros H. unfold InnovatricsService.failed. rewrite H. reflexivity.
Qed.

Lemma failed_unprintable (what : string) (e typeError : JS.Error) :
  toString (InnovatricsService.reason e) = inl typeError ->
  InnovatricsService.failed what e = typeError.
Proof.
  intros H. unfold InnovatricsService.failed. rewrite H. reflexivity.
Qed.

(* ================================================================== *)
(** ** The provider client *)
(* ================================================================== *)

(** C9.  Whatever the environment holds, the configuration object has no
    [bearerToken], so the client's Authorization header is the text
    "Bearer undefined"; every request any method of the service sends,
    and so every request any handler causes, carries exactly that header;
    and replacing the configured [apiKey]/[apiSecret] pair changes nothing
    in what any method does: the credentials are never used. *)
Theorem adapter_requests_never_carry_configured_credentials :
  forall (env : ProcessEnv) (call : AdapterCall),
    get (get (config env) "innovatrics") "bearerToken" = JUndefined
    /\ lookup (inst_headers (InnovatricsService.constructor env)) "Authorization"
       = JStr "Bearer undefined"
    /\ emits (fun r => lookup (headers r) "Authorization"
                       = JStr "Bearer undefined")
             (perform (InnovatricsService.constructor env) call)
    /\ (forall now op req,
          handler_emits (fun r => lookup (headers r) "Authorization"
                                  = JStr "Bearer undefined")
            (handle env now op req))
    /\ (forall apiKey apiSecret,
          perform (InnovatricsService.constructor
                     (with_credentials env apiKey apiSecret)) call
          = perform (InnovatricsService.constructor env) call).
Proof.
  intros env call. split; [reflexivity |]. split; [reflexivity |].
  split; [| split].
  - destruct call; cbn [perform];
      unfold InnovatricsService.createCustomer, InnovatricsService.storeCustomer,
        InnovatricsService.updateCustomerOnboardingStatus,
        InnovatricsService.detectFace, InnovatricsService.compareFaces,
        InnovatricsService.getFaceTemplate, InnovatricsService.checkFaceMask,
        InnovatricsService.evaluateLiveness,
        InnovatricsService.createLivenessChallenge,
        InnovatricsService.submitLivenessData,
        InnovatricsService.deleteLivenessData, InnovatricsService.verifyDocument,
        InnovatricsService.uploadSelfie, InnovatricsService.getSelfie,
        InnovatricsService.deleteSelfie, InnovatricsService.uploadBinaryImage,
        InnovatricsService.storeCustomer;
      walk; reflexivity.
  - intros now op req. destruct op; cbn [handle];
      unfold createCustomer, uploadDocument, performLivenessCheck,
        performFaceDetection, compareFaces, createLivenessChallenge,
        uploadSelfie, getSelfie, getCustomerStatus, deleteCustomer,
        innovatricsClient;
      apply emits_try_respond; cbv zeta;
      unfold InnovatricsService.createCustomer, InnovatricsService.detectFace,
        InnovatricsService.compareFaces, InnovatricsService.checkFaceMask,
        InnovatricsService.createLivenessChallenge,
        InnovatricsService.submitLivenessData,
        InnovatricsService.deleteLivenessData, InnovatricsService.verifyDocument,
        InnovatricsService.uploadSelfie, InnovatricsService.getSelfie,
        InnovatricsService.deleteSelfie;
      walk; reflexivity.
  - intros k s. rewrite constructor_ignores_credentials. reflexivity.
Qed.

(* ================================================================== *)
(** ** Creating a customer *)
(* ================================================================== *)

(** C10.  On every call of the create-customer handler the service
    method drops whatever it is passed, the only request that can reach
    the provider is a POST to [/customers] without a body (sent once when
    a userId is given, not at all otherwise), so neither the caller's
    userId nor the onboarding status is transmitted; in a success reply
    the [userId] is the caller's own value and the [customerId] is the
    [id] the provider returned. *)
Theorem createCustomer_transmits_nothing_of_the_caller :
  forall (env : ProcessEnv) (now : Value) (req : Request)
         (p : Provider) (log : Log),
    let client := innovatricsClient env in
    let post := request client POST "/customers" JUndefined in
    (forall arguments,
        InnovatricsService.createCustomer client arguments
        = InnovatricsService.createCustomer client [])
    /\ snd (createCustomer env now req p log)
       = (if truthy (lookup (body req) "userId")
          then log ++ [post] else log)%list
    /\ (forall payload m,
          fst (createCustomer env now req p log) = success payload m ->
          get payload "userId" = lookup (body req) "userId"
          /\ exists d, p (log ++ [post])%list = Fulfilled d
                       /\ get payload "customerId" = get d "id").
Proof.
  intros env now req p log client post. split; [reflexivity |].
  unfold createCustomer, try_respond, InnovatricsService.createCustomer,
    InnovatricsService.rethrow, try_catch, bind, send, ret, throw.
  fold client. fold post.
  destruct (truthy (lookup (body req) "userId")); cbn.
  - destruct (p (log ++ [post])%list) as [d | e] eqn:Hp; cbn.
    + destruct d; cbn; (split; [reflexivity |]); intros payload m H;
        inversion H; subst; cbn; (split; [reflexivity |]);
        eexists; split; reflexivity.
    + split; [reflexivity |]. intros payload m H. discriminate.
  - split; [reflexivity |]. intros payload m H. discriminate.
Qed.

(* ================================================================== *)
(** ** Comparing faces *)
(* ================================================================== *)

(** C7.  A face comparison that names neither a reference image nor a
    reference template is turned down by the handler's own input check:
    the reply is a validation error, the log is unchanged (no provider
    call), and the router's custom check throws on the same body. *)
Theorem compareFaces_without_reference_is_rejected_locally :
  forall (env : ProcessEnv) (req : Request) (p : Provider) (log : Log),
    truthy (lookup (body req) "referenceFace") = false ->
    truthy (lookup (body req) "referenceFaceTemplate") = false ->
    fst (compareFaces env req p log)
    = validationError
        [ if truthy (lookup (body req) "probeFaceId")
          then "Either referenceFace or referenceFaceTemplate is required"
          else "probeFaceId is required" ]
    /\ snd (compareFaces env req p log) = log
    /\ validateFaceComparison_custom (body req)
       = inl (newError
                "Either referenceFace or referenceFaceTemplate is required").
Proof.
  intros env req p log H1 H2.
  unfold compareFaces, try_respond, validateFaceComparison_custom.
  rewrite H1, H2.
  destruct (truthy (lookup (body req) "probeFaceId")); cbn; auto.
Qed.

Lemma compareFaces_without_reference_witness :
  fst (compareFaces Sample.env (Sample.req [("probeFaceId", JStr "face_1")])
         Sample.provider [])
  = validationError
      ["Either referenceFace or referenceFaceTemplate is required"]
  /\ snd (compareFaces Sample.env (Sample.req [("probeFaceId", JStr "face_1")])
            Sample.provider []) = [].
Proof.
  destruct (compareFaces_without_reference_is_rejected_locally
              Sample.env (Sample.req [("probeFaceId", JStr "face_1")])
              Sample.provider [] eq_refl eq_refl) as [H1 [H2 _]].
  split; [exact H1 | exact H2].
Defined.

(** C1, as claimed, fails: on an empty log no face id has been produced
    by any detection, yet a comparison naming the id [face_unseen] is not
    turned down locally: it is sent to the provider and answered with
    the provider's score. *)
Lemma compareFaces_with_unseen_probe_reaches_provider :
  ~ (forall (env : ProcessEnv) (req : Request) (p : Provider) (log : Log),
        ~ produced_by_detectFace p log (lookup (body req) "probeFaceId") ->
        is_success (fst (compareFaces env req p log)) = false
        /\ snd (compareFaces env req p log) = log).
Proof.
  intro H.
  destruct (H Sample.env Sample.compareUnseenReq Sample.provider []) as [H1 _].
  - intros (before & r & after & d & E & _). destruct before; discriminate.
  - vm_compute in H1. discriminate.
Qed.

(** The outcome of such a comparison is the provider's to decide: with
    the provider out of reach the same request fails, after the call. *)
Example compareFaces_with_unseen_probe_offline :
  compareFaces Sample.env Sample.compareUnseenReq Sample.provider_unreachable []
  = (error "Failed to compare faces" 500
       "Failed to compare faces: connect ECONNREFUSED",
     [ request (innovatricsClient Sample.env) POST
         "/faces/face_unseen/similarity"
         (JObj [ ("referenceFace", JStr "/api/v1/faces/ref_456");
                 ("referenceFaceTemplate", JUndefined) ]) ]).
Proof. reflexivity. Qed.

(** C1, amended.  The handler keeps no record of earlier detections.
    For every request with a probe face id and at least one reference,
    whatever the log holds: if the probe id cannot be printed into the
    URL (an object with its own [toString] property), no provider call is
    made and the reply is the 500 error 'Failed to compare faces';
    otherwise exactly one provider call is made, the POST to
    [/faces/<probeFaceId>/similarity] with the two references as body,
    and the reply is the provider's: its similarity result on success,
    the 500 error 'Failed to compare faces' when the call fails. *)
Theorem compareFaces_asks_the_provider_whatever_was_detected :
  forall (env : ProcessEnv) (req : Request) (p : Provider) (log : Log),
    truthy (lookup (body req) "probeFaceId") = true ->
    truthy (lookup (body req) "referenceFace")
    || truthy (lookup (body req) "referenceFaceTemplate") = true ->
    compareFaces env req p log
    = match toString (lookup (body req) "probeFaceId") with
      | inl e =>
          (error "Failed to compare faces" 500
             (message (InnovatricsService.failed "Failed to compare faces" e)),
           log)
      | inr probe =>
          let call :=
            request (innovatricsClient env) POST
              ("/faces/" ++ probe ++ "/similarity")
              (JObj [ ("referenceFace", lookup (body req) "referenceFace");
                      ("referenceFaceTemplate",
                       lookup (body req) "referenceFaceTemplate") ]) in
          (match p (log ++ [call])%list with
           | Fulfilled similarityResult =>
               success
                 (JObj [ ("customerId", param req "customerId");
                         ("similarityResult", similarityResult);
                         ("status", JStr "faces_compared") ])
                 "Face comparison performed successfully"
           | Rejected e =>
               error "Failed to compare faces" 500
                 (message
                    (InnovatricsService.failed "Failed to compare faces" e))
           end,
           log ++ [call])%list
      end.
Proof.
  intros env req p log Hp Hr.
  unfold compareFaces, try_respond, InnovatricsService.compareFaces,
    InnovatricsService.rethrow, try_catch, bind, send, ret, throw, liftE.
  rewrite Hp. cbn [negb].
  apply orb_true_iff in Hr.
  assert (negb (truthy (lookup (body req) "referenceFace"))
          && negb (truthy (lookup (body req) "referenceFaceTemplate")) = false)
    as ->.
  { destruct Hr as [-> | ->]; cbn; auto using andb_false_r. }
  destruct (toString (lookup (body req) "probeFaceId")) as [e | probe];
    [reflexivity |].
  cbn -[String.append].
  destruct (p (log ++ _)%list); reflexivity.
Qed.

Lemma compareFaces_asks_the_provider_witness :
  fst (compareFaces Sample.env Sample.compareUnseenReq Sample.provider [])
  = success
      (JObj [ ("customerId", JStr "cust_1");
              ("similarityResult", JObj [("score", JNum "0.41")]);
              ("status", JStr "faces_compared") ])
      "Face comparison performed successfully".
Proof.
  rewrite (compareFaces_asks_the_provider_whatever_was_detected
             Sample.env Sample.compareUnseenReq Sample.provider []
             eq_refl eq_refl).
  reflexivity.
Defined.

(** A probe id that cannot be printed never reaches the provider. *)
Example compareFaces_with_unprintable_probe :
  compareFaces Sample.env
    (Sample.req [ ("probeFaceId", JObj [("toString", JNum "1")]);
                  ("referenceFace", JStr "x") ])
    Sample.provider []
  = (error "Failed to compare faces" 500
       "Failed to compare faces: Cannot convert object to primitive value",
     []).
Proof. reflexivity. Qed.

(* ================================================================== *)
(** ** The status query *)
(* ================================================================== *)

(** C6, as claimed, fails: the status reply for a customer on which
    nothing has run is a success, but its payload has no [overallStatus]
    at all, so it does not say that the overall status is in progress. *)
Lemma status_reply_has_no_overallStatus :
  ~ (exists payload msg s,
        fst (getCustomerStatus Sample.statusReq Sample.provider [])
        = success payload msg
        /\ get payload "overallStatus" = JStr s).
Proof.
  intros (payload & msg & s & H & Hs). vm_compute in H.
  inversion H; subst. discriminate.
Qed.

(** C6, amended.  The status query never fails and never calls the
    provider.  For every customer id, known to the provider or not, and
    every log, in particular the empty one on which no stage has run,
    the reply is a success whose payload holds the customer id, the
    status 'active' and the onboarding status 'IN_PROGRESS', and holds no
    document, liveness, face-match or similarity result and no
    [overallStatus]. *)
Theorem status_without_stages_has_no_artifacts :
  forall (req : Request) (p : Provider) (log : Log),
    exists payload,
      fst (getCustomerStatus req p log)
      = success payload "Customer status retrieved successfully"
      /\ get payload "customerId" = param req "customerId"
      /\ get payload "status" = JStr "active"
      /\ get payload "onboardingStatus" = JStr "IN_PROGRESS"
      /\ get payload "documentResult" = JUndefined
      /\ get payload "livenessResult" = JUndefined
      /\ get payload "faceMatchResult" = JUndefined
      /\ get payload "similarityResult" = JUndefined
      /\ get payload "overallStatus" = JUndefined
      /\ snd (getCustomerStatus req p log) = log.
Proof.
  intros req p log. eexists. cbn. repeat split; reflexivity.
Qed.

(** C2, as claimed, fails: in the specification's own scenario every
    stage succeeds and reports a positive outcome ([verified], [live],
    [matched]), so the rule of the specification gives [completed], while
    the status reply still says in progress. *)
Lemma status_after_positive_workflow_is_not_completed :
  let '(doc, live, _, face, status) :=
    fst (run_workflow Sample.env Sample.provider
           Sample.documentReq Sample.livenessReq Sample.detectReq
           Sample.compareReq Sample.statusReq []) in
  (is_success doc && is_success live && is_success face = true)
  /\ ~ (spec_overallStatus (outcome "documentResult" doc)
          (outcome "livenessResult" live)
          (outcome "similarityResult" face) = completed
        <-> overallStatus status = Some completed).
Proof.
  vm_compute. split; [reflexivity |].
  intros [H _]. specialize (H eq_refl). discriminate.
Qed.

(** C2, amended.  The status reply does not depend on any artifact: it
    is the same for every provider and every log, it reports in progress
    and never completed, and this also holds at the end of a workflow
    whose document, liveness, detection and comparison stages all ran,
    whatever they returned. *)
Theorem status_is_always_in_progress :
  forall (env : ProcessEnv) (p p' : Provider) (log log' : Log)
         (doc live detect compare status : Request),
    fst (getCustomerStatus status p log)
    = success
        (JObj [ ("customerId", param status "customerId");
                ("status", JStr "active");
                ("onboardingStatus", JStr "IN_PROGRESS") ])
        "Customer status retrieved successfully"
    /\ fst (getCustomerStatus status p log)
       = fst (getCustomerStatus status p' log')
    /\ overallStatus (fst (getCustomerStatus status p log)) = Some in_progress
    /\ overallStatus (fst (getCustomerStatus status p log)) <> Some completed
    /\ (let '(_, _, _, _, statusReply) :=
          fst (run_workflow env p doc live detect compare status log) in
        overallStatus statusReply = Some in_progress).
Proof.
  intros. repeat split; try reflexivity; try discriminate.
  unfold run_workflow.
  destruct (uploadDocument env doc p log) as [r1 l1].
  destruct (performLivenessCheck env live p l1) as [r2 l2].
  destruct (performFaceDetection env detect p l2) as [r3 l3].
  destruct (compareFaces env compare p l3) as [r4 l4].
  reflexivity.
Qed.

(* ================================================================== *)
(** ** Deleting a customer *)
(* ================================================================== *)

(** C4, as claimed, fails: when the provider refuses to delete the
    selfie, the liveness deletion is never attempted (the log holds the
    selfie deletion alone) and the reply is a single 500 error. *)
Lemma deleteCustomer_selfie_failure_skips_liveness :
  ~ (forall (env : ProcessEnv) (req : Request) (p : Provider) (log : Log),
        exists r,
          In r (snd (deleteCustomer env req p log))
          /\ method r = DELETE
          /\ url r = "/api/v1/customers/"
                     ++ param_text req "customerId"
                     ++ "/liveness").
Proof.
  intro H.
  destruct (H Sample.env Sample.statusReq Sample.provider_selfie_stuck [])
    as (r & Hin & _ & Hurl).
  vm_compute in Hin. destruct Hin as [<- | []].
  vm_compute in Hurl. discriminate.
Qed.

(** C4, amended.  The two deletions run in sequence inside one
    try/catch: the selfie deletion is always attempted; the liveness
    deletion is attempted exactly when the selfie deletion succeeded; the
    reply is a success only when both succeeded, and otherwise the 500
    error 'Failed to delete customer data' whose detail is the error of
    the one deletion that failed.  That detail names the deletion
    whenever the reason of the failure can be printed. *)
Theorem deleteCustomer_stops_at_the_first_failure :
  forall (env : ProcessEnv) (req : Request) (p : Provider) (log : Log),
    let customerId := param_text req "customerId" in
    let delSelfie :=
      request (innovatricsClient env) DELETE
        ("/api/v1/customers/" ++ customerId ++ "/selfie") JUndefined in
    let delLiveness :=
      request (innovatricsClient env) DELETE
        ("/api/v1/customers/" ++ customerId ++ "/liveness") JUndefined in
    deleteCustomer env req p log
    = match p (log ++ [delSelfie])%list with
      | Rejected e =>
          (error "Failed to delete customer data" 500
             (message (InnovatricsService.failed "Failed to delete selfie" e)),
           log ++ [delSelfie])%list
      | Fulfilled _ =>
          (match p (log ++ [delSelfie; delLiveness])%list with
           | Rejected e =>
               error "Failed to delete customer data" 500
                 (message (InnovatricsService.failed
                             "Failed to delete liveness data" e))
           | Fulfilled _ =>
               success (JObj [ ("customerId", param req "customerId");
                               ("deleted", JBool true) ])
                 "Customer data deleted successfully"
           end,
           log ++ [delSelfie; delLiveness])%list
      end
    /\ (forall what e detail,
          toString (InnovatricsService.reason e) = inr detail ->
          message (InnovatricsService.failed what e) = what ++ ": " ++ detail).
Proof.
  intros env req p log customerId delSelfie delLiveness. split.
  - unfold deleteCustomer, try_respond, InnovatricsService.deleteSelfie,
      InnovatricsService.deleteLivenessData, InnovatricsService.rethrow,
      try_catch, bind, send, ret, throw, liftE.
    rewrite toString_param. fold customerId. cbn -[String.append].
    fold delSelfie.
    destruct (p (log ++ [delSelfie])%list); cbn -[String.append];
      [| reflexivity].
    fold delLiveness. rewrite <- app_assoc. cbn -[String.append].
    destruct (p (log ++ [delSelfie; delLiveness])%list); reflexivity.
  - intros what e detail H. rewrite (failed_printable what e detail H).
    reflexivity.
Qed.

(* ================================================================== *)
(** ** Detecting a face *)
(* ================================================================== *)

(** C5, as claimed, fails: the provider detects the face and then
    rejects the mask check; the handler answers with an error, not with
    the detection result. *)
Lemma performFaceDetection_mask_failure_fails_the_detection :
  ~ (forall (env : ProcessEnv) (req : Request) (p : Provider) (log : Log)
            (faceResult : Value) (faceId : string) (e : JS.Error),
        let detect :=
          request (innovatricsClient env) POST "/faces"
            (JObj [("image", lookup (body req) "image")]) in
        let mask :=
          request (innovatricsClient env) GET
            ("/faces/" ++ faceId ++ "/face-mask") JUndefined in
        truthy (lookup (body req) "image") = true ->
        p (log ++ [detect])%list = Fulfilled faceResult ->
        toString (get faceResult "id") = inr faceId ->
        p (log ++ [detect; mask])%list = Rejected e ->
        is_success (fst (performFaceDetection env req p log)) = true).
Proof.
  intro H.
  specialize (H Sample.env Sample.detectReq Sample.provider_mask_down []
                (JObj [ ("id", JStr "face_1");
                        ("detection", JObj [("score", JNum "0.98")]) ])
                "face_1"
                {| response :=
                     JObj [ ("status", JNum "500");
                            ("data",
                             JObj [("message", JStr "mask model unavailable")]) ];
                   message := "Request failed with status code 500" |}
                eq_refl eq_refl eq_refl eq_refl).
  vm_compute in H. discriminate.
Qed.

(** C5, amended.  Detection and mask check run in sequence inside one
    try/catch.  For a request with an image: when the detection fails, or
    its result has no readable [id], or that id cannot be printed into
    the URL, the reply is the 500 error 'Failed to detect face' and no
    mask check is made; when the detection succeeds and the mask check
    fails, the reply is that same 500 error, its detail is the error of
    the mask check (naming it whenever the reason can be printed), and
    the detection result is not returned; only when both succeed is the
    reply a success, carrying both results. *)
Theorem performFaceDetection_needs_both_calls :
  forall (env : ProcessEnv) (req : Request) (p : Provider) (log : Log),
    truthy (lookup (body req) "image") = true ->
    let detect :=
      request (innovatricsClient env) POST "/faces"
        (JObj [("image", lookup (body req) "image")]) in
    let mask := fun faceId =>
      request (innovatricsClient env) GET
        ("/faces/" ++ faceId ++ "/face-mask") JUndefined in
    performFaceDetection env req p log
    = match p (log ++ [detect])%list with
      | Rejected e =>
          (error "Failed to detect face" 500
             (message (InnovatricsService.failed "Failed to detect face" e)),
           log ++ [detect])%list
      | Fulfilled faceResult =>
          match member faceResult "id" with
          | inl e =>
              (error "Failed to detect face" 500 (message e),
               log ++ [detect])%list
          | inr id =>
              match toString id with
              | inl e =>
                  (error "Failed to detect face" 500
                     (message (InnovatricsService.failed
                                 "Failed to check face mask" e)),
                   log ++ [detect])%list
              | inr faceId =>
                  (match p (log ++ [detect; mask faceId])%list with
                   | Rejected e =>
                       error "Failed to detect face" 500
                         (message (InnovatricsService.failed
                                     "Failed to check face mask" e))
                   | Fulfilled maskResult =>
                       success
                         (JObj [ ("customerId", param req "customerId");
                                 ("faceResult", faceResult);
                                 ("maskResult", maskResult);
                                 ("status", JStr "face_detected") ])
                         "Face detection and mask check performed successfully"
                   end,
                   log ++ [detect; mask faceId])%list
              end
          end
      end
    /\ (forall what e detail,
          toString (InnovatricsService.reason e) = inr detail ->
          message (InnovatricsService.failed what e) = what ++ ": " ++ detail).
Proof.
  intros env req p log Himg detect mask. split.
  - unfold performFaceDetection, try_respond, InnovatricsService.detectFace,
      InnovatricsService.checkFaceMask, InnovatricsService.rethrow,
      try_catch, bind, send, ret, throw, liftE.
    rewrite Himg. cbn [negb]. fold detect.
    destruct (p (log ++ [detect])%list) as [faceResult | e];
      cbn -[String.append]; [| reflexivity].
    destruct (member faceResult "id") as [e | id];
      cbn -[String.append]; [reflexivity |].
    destruct (toString id) as [e | faceId];
      cbn -[String.append]; [reflexivity |].
    rewrite <- app_assoc. cbn -[String.append]. fold (mask faceId).
    destruct (p (log ++ [detect; mask faceId])%list); reflexivity.
  - intros what e detail H. rewrite (failed_printable what e detail H).
    reflexivity.
Qed.

Lemma performFaceDetection_needs_both_calls_witness :
  fst (performFaceDetection Sample.env Sample.detectReq
         Sample.provider_mask_down [])
  = error "Failed to detect face" 500
      "Failed to check face mask: mask model unavailable".
Proof.
  rewrite (proj1 (performFaceDetection_needs_both_calls
                    Sample.env Sample.detectReq Sample.provider_mask_down []
                    eq_refl)).
  reflexivity.
Defined.

(** A face id that cannot be printed stops the handler before the mask
    check. *)
Example performFaceDetection_with_unprintable_id :
  performFaceDetection Sample.env Sample.detectReq
    (fun _ => Fulfilled (JObj [("id", JObj [("toString", JNum "1")])])) []
  = (error "Failed to detect face" 500
       "Failed to check face mask: Cannot convert object to primitive value",
     [ request (innovatricsClient Sample.env) POST "/faces"
         (JObj [("image", JStr "c2VsZmll")]) ]).
Proof. reflexivity. Qed.

(* ================================================================== *)
(** ** The liveness check *)
(* ================================================================== *)

(** C3, as claimed, fails: a liveness check that brings neither a
    challenge id nor an image is turned down by the input check, and no
    challenge is created. *)
Lemma liveness_without_image_creates_no_challenge :
  ~ (forall (env : ProcessEnv) (req : Request) (p : Provider) (log : Log),
        truthy (lookup (body req) "challengeId") = false ->
        exists create rest,
          snd (performLivenessCheck env req p log)
          = (log ++ create :: rest)%list
          /\ method create = PUT
          /\ url create = "/customers/" ++ param_text req "customerId"
                          ++ "/liveness/records/challenge").
Proof.
  intro H.
  destruct (H Sample.env (Sample.req []) Sample.provider [] eq_refl)
    as (create & rest & E & _).
  vm_compute in E. discriminate.
Qed.

(** C3, amended.  For a liveness check without a challenge id: without
    an image it is turned down by the input check and nothing is sent.
    With an image, the challenge is created first, of the type the caller
    named and of type 'passive' when none was named.  If that fails, or
    the answer has no readable [challengeId], nothing is submitted and
    the reply is the 500 error 'Failed to perform liveness check'.
    Otherwise exactly one submission follows, carrying the image and
    exactly the [challengeId] the provider returned for that challenge,
    and the reply is the provider's liveness result, or that 500 error
    when the submission fails.  The reply itself records no challenge
    id. *)
Theorem liveness_without_challengeId_uses_the_challenge_it_creates :
  forall (env : ProcessEnv) (req : Request) (p : Provider) (log : Log),
    truthy (lookup (body req) "challengeId") = false ->
    let customerId := param_text req "customerId" in
    let create :=
      request (innovatricsClient env) PUT
        ("/customers/" ++ customerId ++ "/liveness/records/challenge")
        (JObj [("challengeType",
                orElse (lookup (body req) "challengeType") (JStr "passive"))]) in
    let submit := fun challengeId =>
      request (innovatricsClient env) PUT
        ("/customers/" ++ customerId ++ "/liveness")
        (JObj [ ("image", lookup (body req) "image");
                ("challengeId", challengeId);
                ("options", JObj []) ]) in
    (truthy (lookup (body req) "image") = false ->
     performLivenessCheck env req p log
     = (validationError ["image is required"], log))
    /\ (truthy (lookup (body req) "image") = true ->
        performLivenessCheck env req p log
        = match p (log ++ [create])%list with
          | Rejected e =>
              (error "Failed to perform liveness check" 500
                 (message (InnovatricsService.failed
                             "Failed to create liveness challenge" e)),
               log ++ [create])%list
          | Fulfilled challenge =>
              match member challenge "challengeId" with
              | inl e =>
                  (error "Failed to perform liveness check" 500 (message e),
                   log ++ [create])%list
              | inr challengeId =>
                  (match p (log ++ [create; submit challengeId])%list with
                   | Rejected e =>
                       error "Failed to perform liveness check" 500
                         (message (InnovatricsService.failed
                                     "Failed to submit liveness data" e))
                   | Fulfilled livenessResult =>
                       success
                         (JObj [ ("customerId", param req "customerId");
                                 ("livenessResult", livenessResult);
                                 ("status", JStr "liveness_checked") ])
                         "Liveness check performed successfully"
                   end,
                   log ++ [create; submit challengeId])%list
              end
          end)
    /\ (truthy (lookup (body req) "challengeType") = false ->
        data create = JObj [("challengeType", JStr "passive")])
    /\ (forall payload m,
          fst (performLivenessCheck env req p log) = success payload m ->
          get payload "challengeId" = JUndefined).
Proof.
  intros env req p log Hcid customerId create submit.
  assert (truthy (lookup (body req) "image") = true ->
          performLivenessCheck env req p log
          = match p (log ++ [create])%list with
            | Rejected e =>
                (error "Failed to perform liveness check" 500
                   (message (InnovatricsService.failed
                               "Failed to create liveness challenge" e)),
                 log ++ [create])%list
            | Fulfilled challenge =>
                match member challenge "challengeId" with
                | inl e =>
                    (error "Failed to perform liveness check" 500 (message e),
                     log ++ [create])%list
                | inr challengeId =>
                    (match p (log ++ [create; submit challengeId])%list with
                     | Rejected e =>
                         error "Failed to perform liveness check" 500
                           (message (InnovatricsService.failed
                                       "Failed to submit liveness data" e))
                     | Fulfilled livenessResult =>
                         success
                           (JObj [ ("customerId", param req "customerId");
                                   ("livenessResult", livenessResult);
                                   ("status", JStr "liveness_checked") ])
                           "Liveness check performed successfully"
                     end,
                     log ++ [create; submit challengeId])%list
                end
            end) as Hrun.
  { intros Himg.
    unfold performLivenessCheck, try_respond,
      InnovatricsService.createLivenessChallenge,
      InnovatricsService.submitLivenessData, InnovatricsService.rethrow,
      try_catch, bind, send, ret, throw, liftE.
    rewrite Himg, Hcid, toString_param. fold customerId.
    cbn -[String.append orElse].
    change (orElse (JObj [("challengeType",
                           orElse (lookup (body req) "challengeType")
                             (JStr "passive"))]) (JObj []))
      with (JObj [("challengeType",
                   orElse (lookup (body req) "challengeType") (JStr "passive"))]).
    fold create.
    destruct (p (log ++ [create])%list) as [challenge | e];
      cbn -[String.append]; [| reflexivity].
    destruct (member challenge "challengeId") as [e | challengeId];
      cbn -[String.append]; [reflexivity |].
    fold (submit challengeId). rewrite <- app_assoc. cbn -[String.append].
    destruct (p (log ++ [create; submit challengeId])%list); reflexivity. }
  split; [| split; [exact Hrun | split]].
  - intros Himg. unfold performLivenessCheck, try_respond.
    rewrite Himg. reflexivity.
  - intros Hty. unfold create, request, orElse. cbn. rewrite Hty. reflexivity.
  - intros payload m.
    destruct (truthy (lookup (body req) "image")) eqn:Himg.
    + rewrite (Hrun eq_refl).
      destruct (p (log ++ [create])%list) as [challenge | e];
        [| discriminate].
      destruct (member challenge "challengeId") as [e | challengeId];
        [discriminate |].
      destruct (p (log ++ [create; submit challengeId])%list);
        [| discriminate].
      cbn. intros H. inversion H. reflexivity.
    + unfold performLivenessCheck, try_respond. rewrite Himg. discriminate.
Qed.

Lemma liveness_without_challengeId_witness :
  performLivenessCheck Sample.env Sample.livenessReq Sample.provider []
  = (success
       (JObj [ ("customerId", JStr "cust_1");
               ("livenessResult",
                JObj [("confidence", JNum "0.95"); ("status", JStr "live")]);
               ("status", JStr "liveness_checked") ])
       "Liveness check performed successfully",
     [ request (innovatricsClient Sample.env) PUT
         "/customers/cust_1/liveness/records/challenge"
         (JObj [("challengeType", JStr "passive")]);
       request (innovatricsClient Sample.env) PUT
         "/customers/cust_1/liveness"
         (JObj [ ("image", JStr "c2VsZmll");
                 ("challengeId", JStr "challenge_7");
                 ("options", JObj []) ]) ]).
Proof.
  rewrite (proj1 (proj2 (liveness_without_challengeId_uses_the_challenge_it_creates
                           Sample.env Sample.livenessReq Sample.provider []
                           eq_refl)) eq_refl).
  reflexivity.
Defined.

(* ================================================================== *)
(** ** Failure replies *)
(* ================================================================== *)

Lemma answers_ret_success vs payload m :
  answers_within vs (ret (success payload m)).
Proof.
  intros p log r log' H. inversion H. exact I.
Qed.

Lemma answers_ret_validation vs v :
  In v vs -> answers_within vs (ret (validationError [v])).
Proof.
  intros Hin p log r log' H. inversion H. eauto.
Qed.

Lemma answers_bind {A} vs (m : M A) (k : A -> M Reply) :
  (forall a, answers_within vs (k a)) -> answers_within vs (bind m k).
Proof.
  intros Hk p log r log' H. unfold bind in H.
  destruct (m p log) as [[e | a] log1]; [discriminate |].
  exact (Hk a p log1 r log' H).
Qed.

Lemma try_respond_shape vs msg (m : M Reply) :
  answers_within vs m ->
  forall p log,
    reply_shape vs msg
      (fst (try_respond m (fun e => error msg 500 (message e)) p log)).
Proof.
  intros Hm p log. unfold try_respond.
  destruct (m p log) as [[e | r] log1] eqn:E; cbn.
  - auto.
  - specialize (Hm p log r log1 E). destruct r; cbn; auto. contradiction.
Qed.

Ltac answers :=
  repeat first
    [ apply answers_ret_success
    | apply answers_ret_validation; cbn; tauto
    | apply answers_bind; intro
    | match goal with
      | |- answers_within _ (if ?b then _ else _) => destruct b
      end ].

Lemma handle_shape env now op req p log :
  reply_shape (validation_messages op) (failure_message op)
    (fst (handle env now op req p log)).
Proof.
  destruct op; cbn [handle validation_messages failure_message];
    unfold createCustomer, uploadDocument, performLivenessCheck,
      performFaceDetection, compareFaces, createLivenessChallenge,
      uploadSelfie, getSelfie, getCustomerStatus, deleteCustomer;
    apply try_respond_shape; cbv zeta; answers.
Qed.

(** C8, as claimed, fails: no error kind is told apart.  A connection
    that breaks (no response at all) and a rejection by the provider
    (a structured error body) with the same text make the handler pass
    the very same arguments to [ResponseHandler.error], so nothing
    computed from them can be a tag that says which of the two
    happened. *)
Lemma transport_failure_and_rejection_give_the_same_reply :
  ~ (exists kind : Reply -> SpecErrorKind,
        kind (fst (createCustomer Sample.env JNull Sample.startReq
                     (fun _ => Rejected (newError "socket hang up")) []))
        = ProviderUnavailable
        /\ kind (fst (createCustomer Sample.env JNull Sample.startReq
                        (fun _ => Sample.rejection "socket hang up") []))
           = ProviderRejected).
Proof.
  intros (kind & H1 & H2). vm_compute in H1, H2.
  rewrite H1 in H2. discriminate.
Qed.

(** C8, amended.  Every failing operation answers through
    [ResponseHandler] in one of two fixed shapes: a validation error with
    one of the operation's fixed messages, or an error with the
    operation's fixed human-readable message and status 500.  No error
    kind is passed.  The third argument of the error is the text of what
    went wrong, which quotes the provider's own message word for word in
    every configuration: this is shown for customer creation, where a
    rejection whose reason prints as [text] is passed on as
    'Failed to create customer: <text>' whatever the environment.  What
    of these arguments reaches the caller is decided in
    [utils/responseHandler.ts], which is not among the sources. *)
Theorem failure_replies_are_fixed_but_for_the_detail :
  forall (env : ProcessEnv) (now : Value) (op : Operation) (req : Request)
         (p : Provider) (log : Log),
    is_success (fst (handle env now op req p log)) = false ->
    ((exists v, In v (validation_messages op)
                /\ fst (handle env now op req p log) = validationError [v])
     \/ (exists detail,
           fst (handle env now op req p log)
           = error (failure_message op) 500 detail))
    /\ (forall (rejection : JS.Error) (text : string),
          truthy (lookup (body req) "userId") = true ->
          p (log ++ [request (innovatricsClient env) POST "/customers"
                       JUndefined])%list
          = Rejected rejection ->
          toString (InnovatricsService.reason rejection) = inr text ->
          fst (createCustomer env now req p log)
          = error "Failed to create customer" 500
              ("Failed to create customer: " ++ text)).
Proof.
  intros env now op req p log Hfail. split.
  - pose proof (handle_shape env now op req p log) as Hs.
    destruct (fst (handle env now op req p log))
      as [d m | m code detail | errs]; cbn in Hs.
    + discriminate.
    + destruct Hs as [-> ->]. right. eexists. reflexivity.
    + destruct Hs as [v [Hin ->]]. left. exists v. auto.
  - intros rejection text Hu Hp Ht.
    unfold createCustomer, try_respond, InnovatricsService.createCustomer,
      InnovatricsService.rethrow, try_catch, bind, send, ret, throw.
    rewrite Hu. cbn [negb]. rewrite Hp. cbn -[String.append].
    rewrite (failed_printable _ _ _ Ht). reflexivity.
Qed.

Lemma failure_replies_witness :
  fst (createCustomer Sample.env JNull Sample.startReq
         (fun _ => Sample.rejection "tenant 42 quota exceeded") [])
  = error "Failed to create customer" 500
      "Failed to create customer: tenant 42 quota exceeded".
Proof.
  exact (proj2 (failure_replies_are_fixed_but_for_the_detail
                  Sample.env JNull OpCreateCustomer Sample.startReq
                  (fun _ => Sample.rejection "tenant 42 quota exceeded") []
                  eq_refl)
           _ "tenant 42 quota exceeded" eq_refl eq_refl eq_refl).
Defined.

(* ================================================================== *)
(** ** The service methods: what a failure looks like *)
(* ================================================================== *)







(** A provider message that cannot be printed replaces the method's own
    text by the conversion error. *)
Example unprintable_reason_hides_the_method :
  fst (InnovatricsService.deleteSelfie (innovatricsClient Sample.env)
         (JStr "cust_1")
         (fun _ =>
            Rejected {| response :=
                          JObj [("data",
                                 JObj [("message",
                                        JObj [("toString", JNum "1")])])];
                        message := "Request failed with status code 500" |})
         [])
  = inl cannot_convert.
Proof. reflexivity. Qed.

(* ================================================================== *)
(** ** The service methods: how many requests *)
(* ================================================================== *)

Lemma calls_ret {A} (a : A) : calls 0 (ret a).
Proof.
  intros p log. exists []. cbn. rewrite app_nil_r. auto.
Qed.

Lemma calls_liftE {A} (r : JS.Error + A) : calls 0 (liftE r).
Proof.
  intros p log. exists []. destruct r; cbn; rewrite app_nil_r; auto.
Qed.

Lemma calls_send (r : AxiosRequest) : calls 1 (send r).
Proof.
  intros p log. exists [r]. unfold send.
  destruct (p (log ++ [r])%list); cbn; auto.
Qed.

Lemma calls_bind {A B} (a b : nat) (m : M A) (k : A -> M B) :
  calls a m -> (forall x, calls b (k x)) -> calls (a + b) (bind m k).
Proof.
  intros Hm Hk p log. unfold bind.
  destruct (Hm p log) as [n1 [E1 [L1 S1]]].
  destruct (m p log) as [[e | x] log1]; cbn in E1, S1; subst log1.
  - exists n1. cbn. repeat split; [lia |]. intros y H. discriminate.
  - destruct (Hk x p (log ++ n1)%list) as [n2 [E2 [L2 S2]]].
    exists (n1 ++ n2)%list. rewrite E2, app_assoc, length_app.
    specialize (S1 x eq_refl).
    repeat split; [lia |]. intros y H. rewrite (S2 y H). lia.
Qed.

Lemma calls_try_catch {A} (n : nat) (m : M A) h :
  calls n m -> (forall e, exists e', h e = throw e') ->
  calls n (try_catch m h).
Proof.
  intros Hm Hh p log. unfold try_catch.
  destruct (Hm p log) as [n1 [E1 [L1 S1]]].
  destruct (m p log) as [[e | x] log1]; cbn in E1, S1; subst log1.
  - destruct (Hh e) as [e' ->]. exists n1. cbn.
    repeat split; [assumption |]. intros y H. discriminate.
  - exists n1. cbn. repeat split; [assumption |].
    intros y H. exact (S1 x eq_refl).
Qed.

Ltac count :=
  repeat first
    [ apply calls_ret | apply calls_liftE | apply calls_send
    | apply calls_try_catch; [| intro; eexists; reflexivity]
    | match goal with
      | |- calls ?n (bind (liftE _) _) => apply (calls_bind 0 n); [| intro]
      | |- calls (S ?n) (bind (send _) _) => apply (calls_bind 1 n); [| intro]
      | |- calls (S ?n) (bind (try_catch _ _) _) =>
          apply (calls_bind 1 n); [| intro]
      end ].

Lemma perform_calls (client : AxiosInstance) (call : AdapterCall) :
  calls (requests_of call) (perform client call).
Proof.
  destruct call; cbn [perform requests_of];
    unfold InnovatricsService.createCustomer, InnovatricsService.storeCustomer,
      InnovatricsService.updateCustomerOnboardingStatus,
      InnovatricsService.detectFace, InnovatricsService.compareFaces,
      InnovatricsService.getFaceTemplate, InnovatricsService.checkFaceMask,
      InnovatricsService.evaluateLiveness,
      InnovatricsService.createLivenessChallenge,
      InnovatricsService.submitLivenessData,
      InnovatricsService.deleteLivenessData, InnovatricsService.verifyDocument,
      InnovatricsService.uploadSelfie, InnovatricsService.getSelfie,
      InnovatricsService.deleteSelfie, InnovatricsService.uploadBinaryImage,
      InnovatricsService.storeCustomer, InnovatricsService.rethrow;
    cbv zeta; count.
Qed.


(* ================================================================== *)
(** ** Document upload *)
(* ================================================================== *)

(** X3.  A document upload with a front image first creates the
    document at the provider, sending the images once and the document
    type 'id_card' when the caller named none.  If that fails, or the
    answer has no readable or printable [id], nothing else is sent and
    the reply is the 500 error 'Failed to verify document'.  Otherwise
    exactly one verification request follows, addressed to the id the
    provider returned for that very document, and the reply carries the
    answer to the verification, or that 500 error when it fails. *)
Theorem uploadDocument_verifies_the_document_it_created :
  forall (env : ProcessEnv) (req : Request) (p : Provider) (log : Log),
    truthy (lookup (body req) "frontImage") = true ->
    let create :=
      request (innovatricsClient env) POST "/documents"
        (JObj [ ("frontImage", lookup (body req) "frontImage");
                ("backImage", lookup (body req) "backImage");
                ("documentType",
                 orElse (lookup (body req) "documentType") (JStr "id_card")) ]) in
    let verify := fun id =>
      request (innovatricsClient env) POST
        ("/documents/" ++ id ++ "/verify") JUndefined in
    let failure := fun e =>
      error "Failed to verify document" 500
        (message (InnovatricsService.failed "Failed to verify document" e)) in
    uploadDocument env req p log
    = match p (log ++ [create])%list with
      | Rejected e => (failure e, log ++ [create])%list
      | Fulfilled created =>
          match member created "id" with
          | inl e => (failure e, log ++ [create])%list
          | inr createdId =>
              match toString createdId with
              | inl e => (failure e, log ++ [create])%list
              | inr id =>
                  (match p (log ++ [create; verify id])%list with
                   | Rejected e => failure e
                   | Fulfilled documentResult =>
                       success
                         (JObj [ ("customerId", param req "customerId");
                                 ("documentResult", documentResult);
                                 ("status", JStr "document_verified") ])
                         "Document verified successfully"
                   end,
                   log ++ [create; verify id])%list
              end
          end
      end.
Proof.
  intros env req p log Hfront create verify failure.
  unfold uploadDocument, try_respond, InnovatricsService.verifyDocument,
    InnovatricsService.rethrow, try_catch, bind, send, ret, throw, liftE.
  rewrite Hfront. cbn -[String.append orElse]. fold create.
  destruct (p (log ++ [create])%list) as [created | e];
    cbn -[String.append]; [| reflexivity].
  destruct (member created "id") as [e | createdId];
    cbn -[String.append]; [reflexivity |].
  destruct (toString createdId) as [e | id];
    cbn -[String.append]; [reflexivity |].
  fold (verify id). rewrite <- app_assoc. cbn -[String.append].
  destruct (p (log ++ [create; verify id])%list); reflexivity.
Qed.

Lemma uploadDocument_witness :
  snd (uploadDocument Sample.env Sample.documentReq Sample.provider [])
  = [ request (innovatricsClient Sample.env) POST "/documents"
        (JObj [ ("frontImage", JStr "ZnJvbnQ=");
                ("backImage", JStr "YmFjaw==");
                ("documentType", JStr "passport") ]);
      request (innovatricsClient Sample.env) POST "/documents/doc_1/verify"
        JUndefined ].
Proof.
  rewrite (uploadDocument_verifies_the_document_it_created
             Sample.env Sample.documentReq Sample.provider [] eq_refl).
  reflexivity.
Defined.

(* ================================================================== *)
(** ** Liveness check with a challenge id *)
(* ================================================================== *)

(** X4.  A liveness check that brings its own challenge id creates no
    challenge: the one request it makes is the submission, carrying the
    caller's id unchanged, and the reply is the provider's answer to it.
    A [challengeType] in the same body plays no part. *)
Theorem liveness_with_challengeId_submits_once :
  forall (env : ProcessEnv) (req : Request) (p : Provider) (log : Log),
    truthy (lookup (body req) "image") = true ->
    truthy (lookup (body req) "challengeId") = true ->
    let customerId := param req "customerId" in
    let submit :=
      request (innovatricsClient env) PUT
        ("/customers/" ++ param_text req "customerId" ++ "/liveness")
        (JObj [ ("image", lookup (body req) "image");
                ("challengeId", lookup (body req) "challengeId");
                ("options", JObj []) ]) in
    performLivenessCheck env req p log
    = (match p (log ++ [submit])%list with
       | Fulfilled livenessResult =>
           success
             (JObj [ ("customerId", customerId);
                     ("livenessResult", livenessResult);
                     ("status", JStr "liveness_checked") ])
             "Liveness check performed successfully"
       | Rejected e =>
           error "Failed to perform liveness check" 500
             (message (InnovatricsService.failed
                         "Failed to submit liveness data" e))
       end,
       log ++ [submit])%list.
Proof.
  intros env req p log Himg Hcid customerId submit.
  unfold performLivenessCheck, try_respond,
    InnovatricsService.submitLivenessData, InnovatricsService.rethrow,
    try_catch, bind, send, ret, throw, liftE.
  rewrite Himg, Hcid, toString_param. cbn -[String.append].
  fold customerId. fold submit.
  destruct (p (log ++ [submit])%list); reflexivity.
Qed.

Lemma liveness_with_challengeId_witness :
  snd (performLivenessCheck Sample.env
         (Sample.req [ ("image", JStr "c2VsZmll");
                       ("challengeId", JStr "challenge_3");
                       ("challengeType", JStr "motion") ])
         Sample.provider [])
  = [ request (innovatricsClient Sample.env) PUT "/customers/cust_1/liveness"
        (JObj [ ("image", JStr "c2VsZmll");
                ("challengeId", JStr "challenge_3");
                ("options", JObj []) ]) ].
Proof.
  rewrite (liveness_with_challengeId_submits_once Sample.env
             (Sample.req [ ("image", JStr "c2VsZmll");
                           ("challengeId", JStr "challenge_3");
                           ("challengeType", JStr "motion") ])
             Sample.provider [] eq_refl eq_refl).
  reflexivity.
Defined.

(* ================================================================== *)
(** ** Answers that lack the expected id *)
(* ================================================================== *)

(** X5.  The id the provider returns is not checked before it is used.
    When the face detection is answered with an object that has no [id],
    the mask check is still made, for the face named 'undefined'; when
    the document creation is answered with an object that has no [id],
    the verification is still requested, for the document named
    'undefined'. *)
Theorem missing_ids_are_sent_as_undefined :
  forall (env : ProcessEnv) (req : Request) (p : Provider) (log : Log)
         (fields : JS.Object),
    lookup fields "id" = JUndefined ->
    (truthy (lookup (body req) "image") = true ->
     p (log ++ [request (innovatricsClient env) POST "/faces"
                  (JObj [("image", lookup (body req) "image")])])%list
     = Fulfilled (JObj fields) ->
     exists detect,
       snd (performFaceDetection env req p log)
       = (log ++ [detect;
                  request (innovatricsClient env) GET
                    "/faces/undefined/face-mask" JUndefined])%list)
    /\ (truthy (lookup (body req) "frontImage") = true ->
        p (log ++ [request (innovatricsClient env) POST "/documents"
                     (JObj [ ("frontImage", lookup (body req) "frontImage");
                             ("backImage", lookup (body req) "backImage");
                             ("documentType",
                              orElse (lookup (body req) "documentType")
                                     (JStr "id_card")) ])])%list
        = Fulfilled (JObj fields) ->
        exists create,
          snd (uploadDocument env req p log)
          = (log ++ [create;
                     request (innovatricsClient env) POST
                       "/documents/undefined/verify" JUndefined])%list).
Proof.
  intros env req p log fields Hid. split.
  - intros Himg Hp.
    unfold performFaceDetection, try_respond, InnovatricsService.detectFace,
      InnovatricsService.checkFaceMask, InnovatricsService.rethrow,
      try_catch, bind, send, ret, throw, liftE.
    rewrite Himg. cbn [negb]. rewrite Hp. cbn. rewrite Hid. cbn.
    rewrite <- app_assoc. cbn. eexists.
    match goal with
    | |- context [match p ?l with _ => _ end] => destruct (p l)
    end; reflexivity.
  - intros Hfront Hp.
    unfold uploadDocument, try_respond, InnovatricsService.verifyDocument,
      InnovatricsService.rethrow, try_catch, bind, send, ret, throw, liftE.
    rewrite Hfront. cbn [negb]. cbn -[orElse]. rewrite Hp. cbn -[orElse].
    rewrite Hid. cbn -[orElse].
    rewrite <- app_assoc. cbn -[orElse]. eexists.
    match goal with
    | |- context [match p ?l with _ => _ end] => destruct (p l)
    end; reflexivity.
Qed.

Lemma missing_ids_witness :
  exists detect,
    snd (performFaceDetection Sample.env Sample.detectReq
           (fun _ => Fulfilled (JObj [("detection", JNull)])) [])
    = [detect;
       request (innovatricsClient Sample.env) GET
         "/faces/undefined/face-mask" JUndefined].
Proof.
  exact (proj1 (missing_ids_are_sent_as_undefined
                  Sample.env Sample.detectReq
                  (fun _ => Fulfilled (JObj [("detection", JNull)])) []
                  [("detection", JNull)] eq_refl)
           eq_refl eq_refl).
Defined.

(* ================================================================== *)
(** ** Input checks of the handlers *)
(* ================================================================== *)

Lemma never_validation_ret_success payload m :
  never_validation (ret (success payload m)).
Proof.
  intros p log errors log' H. discriminate.
Qed.

Lemma never_validation_bind {A} (m : M A) (k : A -> M Reply) :
  (forall a, never_validation (k a)) -> never_validation (bind m k).
Proof.
  intros Hk p log errors log' H. unfold bind in H.
  destruct (m p log) as [[e | a] log1]; [discriminate |].
  exact (Hk a p log1 errors log' H).
Qed.

Lemma try_respond_never_validation (m : M Reply) msg p log errors :
  never_validation m ->
  fst (try_respond m (fun e => error msg 500 (message e)) p log)
  <> validationError errors.
Proof.
  intros Hm. unfold try_respond.
  destruct (m p log) as [[e | r] log1] eqn:E; cbn; [discriminate |].
  intros ->. exact (Hm p log errors log1 E).
Qed.

Ltac no_validation :=
  repeat first
    [ apply never_validation_ret_success
    | apply never_validation_bind; intro ].

(** X6.  A handler that answers with a validation error has not
    contacted the provider: the log is exactly what it was. *)
Theorem validation_replies_make_no_provider_call :
  forall (env : ProcessEnv) (now : Value) (op : Operation) (req : Request)
         (p : Provider) (log : Log) (errors : list string),
    fst (handle env now op req p log) = validationError errors ->
    snd (handle env now op req p log) = log.
Proof.
  intros env now op req p log errors.
  destruct op; cbn [handle];
    unfold createCustomer, uploadDocument, performLivenessCheck,
      performFaceDetection, compareFaces, createLivenessChallenge,
      uploadSelfie, getSelfie, getCustomerStatus, deleteCustomer;
    cbv zeta;
    repeat match goal with
      | |- context [if ?c then ret (validationError _) else _] =>
          destruct c; [reflexivity |]
      end;
    intros H; exfalso; revert H;
    apply try_respond_never_validation; no_validation.
Qed.

Lemma validation_replies_witness :
  snd (handle Sample.env JNull OpUploadSelfie (Sample.req [])
         Sample.provider []) = [].
Proof.
  exact (validation_replies_make_no_provider_call
           Sample.env JNull OpUploadSelfie (Sample.req []) Sample.provider []
           ["image is required"] eq_refl).
Defined.

(** X7.  Each handler that insists on a body field turns a request
    without it (absent, or the empty string) down before anything else:
    the reply is the validation error '<field> is required' and the
    provider is not contacted. *)
Theorem missing_required_input_is_rejected :
  forall (env : ProcessEnv) (now : Value) (op : Operation) (field : string)
         (req : Request) (p : Provider) (log : Log),
    required_input op = Some field ->
    truthy (lookup (body req) field) = false ->
    handle env now op req p log
    = (validationError [field ++ " is required"], log).
Proof.
  intros env now op field req p log Hf Hmiss.
  destruct op; cbn in Hf; inversion Hf; subst field; cbn [handle];
    unfold createCustomer, uploadDocument, performLivenessCheck,
      performFaceDetection, compareFaces, uploadSelfie, try_respond;
    rewrite Hmiss; reflexivity.
Qed.

Lemma missing_required_input_witness :
  handle Sample.env JNull OpCreateCustomer
    {| params := []; body := [("userId", JStr "")] |} Sample.provider []
  = (validationError ["userId is required"], []).
Proof.
  exact (missing_required_input_is_rejected
           Sample.env JNull OpCreateCustomer "userId"
           {| params := []; body := [("userId", JStr "")] |}
           Sample.provider [] eq_refl eq_refl).
Defined.

(* ================================================================== *)
(** ** Success payloads *)
(* ================================================================== *)

Lemma success_payloads_ret (Q : Value -> Prop) payload m :
  Q payload -> success_payloads Q (ret (success payload m)).
Proof.
  intros H p log payload' m' log' E. inversion E. subst. exact H.
Qed.

Lemma success_payloads_ret_validation (Q : Value -> Prop) errors :
  success_payloads Q (ret (validationError errors)).
Proof.
  intros p log payload' m' log' E. discriminate.
Qed.

Lemma success_payloads_bind {A} (Q : Value -> Prop) (m : M A) k :
  (forall a, success_payloads Q (k a)) -> success_payloads Q (bind m k).
Proof.
  intros Hk p log payload msg log' H. unfold bind in H.
  destruct (m p log) as [[e | a] log1]; [discriminate |].
  exact (Hk a p log1 payload msg log' H).
Qed.

Lemma try_respond_success_payloads (Q : Value -> Prop) (m : M Reply) h p log
      payload msg :
  success_payloads Q m ->
  (forall e, h e <> success payload msg) ->
  fst (try_respond m h p log) = success payload msg -> Q payload.
Proof.
  intros Hm Hh. unfold try_respond.
  destruct (m p log) as [[e | r] log1] eqn:E; cbn.
  - intros H. destruct (Hh e H).
  - intros ->. exact (Hm p log payload msg log1 E).
Qed.

Ltac payloads :=
  repeat first
    [ apply success_payloads_ret_validation
    | apply success_payloads_ret
    | apply success_payloads_bind; intro
    | match goal with
      | |- success_payloads _ (if ?c then _ else _) => destruct c
      end ].

(** X8.  Every success payload names the operation that produced it and
    the customer it is about: its [status] is the handler's fixed tag
    (the deletion reply has none), and, for every handler but customer
    creation, its [customerId] is the one of the request path and not
    anything the provider returned. *)
Theorem success_payloads_are_tagged :
  forall (env : ProcessEnv) (now : Value) (op : Operation) (req : Request)
         (p : Provider) (log : Log) (payload : Value) (msg : string),
    fst (handle env now op req p log) = success payload msg ->
    get payload "status"
    = match status_tag op with Some t => JStr t | None => JUndefined end
    /\ (op <> OpCreateCustomer ->
        get payload "customerId" = param req "customerId").
Proof.
  intros env now op req p log payload msg.
  destruct op; cbn [handle status_tag];
    unfold createCustomer, uploadDocument, performLivenessCheck,
      performFaceDetection, compareFaces, createLivenessChallenge,
      uploadSelfie, getSelfie, getCustomerStatus, deleteCustomer;
    cbv zeta;
    intros H; pattern payload; revert H;
    apply try_respond_success_payloads;
    try (intros e; discriminate);
    payloads; cbn; split; try reflexivity; intros H; try reflexivity;
    contradiction.
Qed.

Lemma success_payloads_witness :
  get (JObj [ ("customerId", JStr "cust_1");
              ("similarityResult", JObj [("score", JNum "0.41")]);
              ("status", JStr "faces_compared") ]) "status"
  = JStr "faces_compared".
Proof.
  exact (proj1 (success_payloads_are_tagged
                  Sample.env JNull OpCompareFaces Sample.compareUnseenReq
                  Sample.provider []
                  (JObj [ ("customerId", JStr "cust_1");
                          ("similarityResult", JObj [("score", JNum "0.41")]);
                          ("status", JStr "faces_compared") ])
                  "Face comparison performed successfully" eq_refl)).
Defined.

(* ================================================================== *)
(** ** Reading a normal return backwards *)
(* ================================================================== *)

Lemma bind_inr {A B} (m : M A) (k : A -> M B) p log b log' :
  bind m k p log = (inr b, log') ->
  exists a log1, m p log = (inr a, log1) /\ k a p log1 = (inr b, log').
Proof.
  unfold bind. destruct (m p log) as [[e | a] log1]; [discriminate |].
  intros H. exists a, log1. auto.
Qed.

Lemma try_catch_inr {A} (m : M A) h p log a log' :
  (forall e, exists e', h e = throw e') ->
  try_catch m h p log = (inr a, log') -> m p log = (inr a, log').
Proof.
  intros Hh. unfold try_catch.
  destruct (m p log) as [[e | x] log1]; [| auto].
  destruct (Hh e) as [e' ->]. discriminate.
Qed.

Lemma send_inr r p log d log' :
  send r p log = (inr d, log') ->
  log' = (log ++ [r])%list /\ p (log ++ [r])%list = Fulfilled d.
Proof.
  unfold send. destruct (p (log ++ [r])%list) eqn:E; [| discriminate].
  intros H. inversion H. auto.
Qed.

Lemma liftE_inr {A} (x : JS.Error + A) p log a log' :
  liftE x p log = (inr a, log') -> x = inr a /\ log' = log.
Proof.
  destruct x; cbn; [discriminate |]. intros H. inversion H. auto.
Qed.

Lemma member_inr v k x : member v k = inr x -> x = get v k.
Proof.
  destruct v; cbn; intros H; inversion H; reflexivity.
Qed.

(* ================================================================== *)
(** ** Customer creation: the provider's answer is taken as it is *)
(* ================================================================== *)

(** X9.  The create-customer handler does not inspect what the provider
    returned: whenever the call is fulfilled with anything but
    [undefined] or [null], the reply is a success, and its [customerId]
    is the answer's [id], present or not. *)
Theorem createCustomer_accepts_any_answer :
  forall (env : ProcessEnv) (now : Value) (req : Request)
         (p : Provider) (log : Log) (answer : Value),
    truthy (lookup (body req) "userId") = true ->
    p (log ++ [request (innovatricsClient env) POST "/customers" JUndefined])%list
    = Fulfilled answer ->
    answer <> JUndefined -> answer <> JNull ->
    fst (createCustomer env now req p log)
    = success
        (JObj [ ("customerId", get answer "id");
                ("status", JStr "created");
                ("createdAt", now);
                ("userId", lookup (body req) "userId") ])
        "Customer created successfully".
Proof.
  intros env now req p log answer Hu Hp Hn1 Hn2.
  unfold createCustomer, try_respond, InnovatricsService.createCustomer,
    InnovatricsService.rethrow, try_catch, bind, send, ret, throw, liftE.
  rewrite Hu. cbn [negb]. rewrite Hp. cbn.
  destruct answer; try reflexivity; contradiction.
Qed.

Lemma createCustomer_accepts_any_answer_witness :
  fst (createCustomer Sample.env (JStr "2025-10-17T14:30:00.000Z")
         Sample.startReq (fun _ => Fulfilled (JObj [])) [])
  = success
      (JObj [ ("customerId", JUndefined);
              ("status", JStr "created");
              ("createdAt", JStr "2025-10-17T14:30:00.000Z");
              ("userId", JStr "user123") ])
      "Customer created successfully".
Proof.
  apply (createCustomer_accepts_any_answer
           Sample.env (JStr "2025-10-17T14:30:00.000Z") Sample.startReq
           (fun _ => Fulfilled (JObj [])) [] (JObj []) eq_refl eq_refl);
    discriminate.
Defined.

(* ================================================================== *)
(** ** The service's own liveness evaluation *)
(* ================================================================== *)

(** X10.  When [evaluateLiveness] returns, the customer id was
    printable and it has made three requests in this order: the challenge
    creation, the fetch of the stored selfie, and the submission, each
    under that id; the submission carries the image of that selfie
    and the id of that challenge; and the value returned holds the
    [confidence], [status], [isDeepfake] and [deepfakeConfidence] of the
    provider's answer to the submission and no other property. *)
Theorem evaluateLiveness_returns_the_four_liveness_fields :
  forall (client : AxiosInstance) (customerId options : Value)
         (p : Provider) (log : Log) (r : Value),
    fst (InnovatricsService.evaluateLiveness client customerId options p log)
    = inr r ->
    exists c1 c2 c3 challenge selfie result id,
      snd (InnovatricsService.evaluateLiveness client customerId options p log)
      = (log ++ [c1; c2; c3])%list
      /\ toString customerId = inr id
      /\ p (log ++ [c1])%list = Fulfilled challenge
      /\ p (log ++ [c1; c2])%list = Fulfilled selfie
      /\ p (log ++ [c1; c2; c3])%list = Fulfilled result
      /\ url c1 = "/customers/" ++ id ++ "/liveness/records/challenge"
      /\ url c2 = "/api/v1/customers/" ++ id ++ "/selfie"
      /\ url c3 = "/customers/" ++ id ++ "/liveness"
      /\ get (data c3) "image" = get selfie "image"
      /\ get (data c3) "challengeId" = get challenge "challengeId"
      /\ get r "confidence" = get result "confidence"
      /\ get r "status" = get result "status"
      /\ get r "isDeepfake" = get result "isDeepfake"
      /\ get r "deepfakeConfidence" = get result "deepfakeConfidence"
      /\ (forall k,
            k <> "confidence" -> k <> "status" -> k <> "isDeepfake" ->
            k <> "deepfakeConfidence" -> get r k = JUndefined).
Proof.
  intros client customerId options p log r H.
  destruct (InnovatricsService.evaluateLiveness client customerId options p log)
    as [[e | r'] log'] eqn:E; cbn in H; [discriminate |].
  inversion H; subst r'; clear H. cbn [snd].
  unfold InnovatricsService.evaluateLiveness in E. cbv zeta in E.
  apply try_catch_inr in E; [| intro; eexists; reflexivity].
  apply bind_inr in E. destruct E as (challengeType & l0 & E0 & E).
  apply liftE_inr in E0. destruct E0 as [_ ->].
  apply bind_inr in E. destruct E as (challenge & l1 & E1 & E).
  unfold InnovatricsService.createLivenessChallenge in E1.
  apply try_catch_inr in E1; [| intro; eexists; reflexivity].
  apply bind_inr in E1. destruct E1 as (id & li & Ei & E1).
  apply liftE_inr in Ei. destruct Ei as [Hid ->].
  apply send_inr in E1. destruct E1 as [-> P1].
  apply bind_inr in E. destruct E as (selfie & l2 & E2 & E).
  unfold InnovatricsService.getSelfie in E2.
  apply try_catch_inr in E2; [| intro; eexists; reflexivity].
  apply bind_inr in E2. destruct E2 as (id2 & li2 & Ei2 & E2).
  apply liftE_inr in Ei2. destruct Ei2 as [Hid2 ->].
  rewrite Hid in Hid2. inversion Hid2; subst id2; clear Hid2.
  apply send_inr in E2. destruct E2 as [-> P2].
  apply bind_inr in E. destruct E as (image & l3 & E3 & E).
  apply liftE_inr in E3. destruct E3 as [Himage ->].
  apply member_inr in Himage. subst image.
  apply bind_inr in E. destruct E as (challengeId & l4 & E4 & E).
  apply liftE_inr in E4. destruct E4 as [Hcid ->].
  apply member_inr in Hcid. subst challengeId.
  apply bind_inr in E. destruct E as (result & l5 & E5 & E).
  unfold InnovatricsService.submitLivenessData in E5.
  apply try_catch_inr in E5; [| intro; eexists; reflexivity].
  apply bind_inr in E5. destruct E5 as (id3 & li3 & Ei3 & E5).
  apply liftE_inr in Ei3. destruct Ei3 as [Hid3 ->].
  rewrite Hid in Hid3. inversion Hid3; subst id3; clear Hid3.
  apply bind_inr in E5. destruct E5 as (image' & l6 & E6 & E5).
  apply liftE_inr in E6. destruct E6 as [Himage' ->].
  apply send_inr in E5. destruct E5 as [-> P3].
  apply bind_inr in E. destruct E as (confidence & l7 & E7 & E).
  apply liftE_inr in E7. destruct E7 as [Hconf ->].
  apply member_inr in Hconf. subst confidence.
  cbn -[String.append] in E. inversion E; subst; clear E.
  repeat (rewrite <- app_assoc in P2; cbn [app] in P2).
  repeat (rewrite <- app_assoc in P3; cbn [app] in P3).
  do 3 eexists. exists challenge, selfie, result, id.
  split; [repeat (rewrite <- app_assoc; cbn [app]); reflexivity |].
  split; [exact Hid |].
  split; [exact P1 |]. split; [exact P2 |]. split; [exact P3 |].
  split; [reflexivity |]. split; [reflexivity |]. split; [reflexivity |].
  cbn in Himage'. inversion Himage'; subst image'.
  split; [reflexivity |]. split; [reflexivity |].
  destruct (defined (get result "isDeepfake")) eqn:D1;
    destruct (defined (get result "deepfakeConfidence")) eqn:D2;
    cbn -[lookup];
    repeat match goal with
      | D : defined ?v = false |- _ =>
          assert (v = JUndefined) as -> by (destruct v; [reflexivity | discriminate ..]);
          clear D
      end;
    (split; [reflexivity |]); (split; [reflexivity |]);
    (split; [reflexivity |]); (split; [reflexivity |]);
    intros k K1 K2 K3 K4; cbn -[String.eqb];
    repeat match goal with
      | |- context [String.eqb ?a k] =>
          destruct (String.eqb_spec a k); [congruence |]
      end;
    reflexivity.
Qed.

Lemma evaluateLiveness_witness :
  exists c1 c2 c3,
    snd (InnovatricsService.evaluateLiveness (innovatricsClient Sample.env)
           (JStr "cust_1") JUndefined
           (fun log =>
              match log with
              | [_; _] => Fulfilled (JObj [("image", JStr "c2VsZmll")])
              | _ => Sample.provider log
              end) [])
    = [c1; c2; c3].
Proof.
  destruct (evaluateLiveness_returns_the_four_liveness_fields
              (innovatricsClient Sample.env) (JStr "cust_1") JUndefined
              (fun log =>
                 match log with
                 | [_; _] => Fulfilled (JObj [("image", JStr "c2VsZmll")])
                 | _ => Sample.provider log
                 end) []
              (JObj [ ("confidence", JNum "0.95"); ("status", JStr "live") ])
              eq_refl)
    as (c1 & c2 & c3 & _ & _ & _ & _ & H & _).
  exists c1, c2, c3. exact H.
Defined.

(* ================================================================== *)
(** ** Request budget of the handlers *)
(* ================================================================== *)

Lemma sends_ret {A} (n : nat) (a : A) : sends_at_most n (ret a).
Proof.
  intros p log. exists []. cbn. rewrite app_nil_r. split; [reflexivity | lia].
Qed.

Lemma sends_liftE {A} (n : nat) (r : JS.Error + A) : sends_at_most n (liftE r).
Proof.
  intros p log. exists []. destruct r; cbn; rewrite app_nil_r;
    (split; [reflexivity | lia]).
Qed.

Lemma sends_bind {A B} (a b : nat) (m : M A) (k : A -> M B) :
  sends_at_most a m -> (forall x, sends_at_most b (k x)) ->
  sends_at_most (a + b) (bind m k).
Proof.
  intros Hm Hk p log. unfold bind.
  destruct (Hm p log) as [n1 [E1 L1]].
  destruct (m p log) as [[e | x] log1]; cbn in E1; subst log1.
  - exists n1. cbn. split; [reflexivity | lia].
  - destruct (Hk x p (log ++ n1)%list) as [n2 [E2 L2]].
    exists (n1 ++ n2)%list. rewrite E2, app_assoc, length_app.
    split; [reflexivity | lia].
Qed.

Lemma sends_service {B} (client : AxiosInstance) (call : AdapterCall)
      (n : nat) (k : Value -> M B) :
  (forall x, sends_at_most n (k x)) ->
  sends_at_most (requests_of call + n) (bind (perform client call) k).
Proof.
  intros Hk. apply sends_bind; [| exact Hk].
  intros p log. destruct (perform_calls client call p log) as [new [E [L _]]].
  exists new. auto.
Qed.

Lemma sends_try_respond (n : nat) (m : M Reply) h :
  sends_at_most n m -> at_most n (try_respond m h).
Proof.
  intros Hm p log. unfold try_respond.
  destruct (Hm p log) as [new [E L]].
  destruct (m p log) as [[e | r] log1]; cbn in *; eauto.
Qed.

(** X11.  One inbound request never costs more than two provider
    requests: none for the status query, at most two for document upload,
    liveness check, face detection and deletion, at most one for every
    other handler; and a handler only ever appends to the log. *)
Theorem handlers_stay_within_their_request_bound :
  forall (env : ProcessEnv) (now : Value) (op : Operation) (req : Request)
         (p : Provider) (log : Log),
    exists new,
      snd (handle env now op req p log) = (log ++ new)%list
      /\ length new <= request_bound op
      /\ request_bound op <= 2.
Proof.
  intros env now op req p log.
  assert (at_most (request_bound op) (handle env now op req)) as H.
  { set (c := innovatricsClient env).
    destruct op; cbn [handle request_bound];
      unfold createCustomer, uploadDocument, performLivenessCheck,
        performFaceDetection, compareFaces, createLivenessChallenge,
        uploadSelfie, getSelfie, getCustomerStatus, deleteCustomer;
      fold c; apply sends_try_respond; cbv zeta;
      repeat match goal with
        | |- sends_at_most _ (if ?b then ret _ else _) =>
            destruct b; [apply sends_ret |]
        end.
    - eapply (sends_service c (CreateCustomer []) 0). intro.
      apply (sends_bind 0 0); [apply sends_liftE | intro; apply sends_ret].
    - eapply (sends_service c (VerifyDocument _) 0). intro. apply sends_ret.
    - apply (sends_bind 1 1).
      + destruct (negb (truthy (lookup (body req) "challengeId")));
          [| apply sends_ret].
        eapply (sends_service c (CreateLivenessChallenge _ _) 0). intro.
        apply sends_liftE.
      + intro. eapply (sends_service c (SubmitLivenessData _ _) 0). intro.
        apply sends_ret.
    - eapply (sends_service c (DetectFace _) 1). intro.
      apply (sends_bind 0 1); [apply sends_liftE | intro].
      eapply (sends_service c (CheckFaceMask _) 0). intro. apply sends_ret.
    - eapply (sends_service c (CompareFaces _ _) 0). intro. apply sends_ret.
    - eapply (sends_service c (CreateLivenessChallenge _ _) 0). intro.
      apply sends_ret.
    - eapply (sends_service c (UploadSelfie _ _) 0). intro. apply sends_ret.
    - eapply (sends_service c (GetSelfie _) 0). intro. apply sends_ret.
    - apply sends_ret.
    - eapply (sends_service c (DeleteSelfie _) 1). intro.
      eapply (sends_service c (DeleteLivenessData _) 0). intro. apply sends_ret. }
  destruct (H p log) as [new [E L]]. exists new.
  repeat split; [exact E | exact L | destruct op; cbn; lia].
Qed.

(* ================================================================== *)
(** ** Binary uploads *)
(* ================================================================== *)

Lemma lookup_set_same (o : JS.Object) (k : string) (v : Value) :
  lookup (set o k v) k = v.
Proof.
  induction o as [| [k0 v0] o IH]; cbn.
  - rewrite String.eqb_refl. reflexivity.
  - destruct (String.eqb_spec k0 k) as [-> | Hne]; cbn.
    + rewrite String.eqb_refl. reflexivity.
    + destruct (String.eqb_spec k0 k); [contradiction | exact IH].
Qed.

(** X12.  For any client, [uploadBinaryImage] sends one PUT to the given
    endpoint with the buffer as body; the request's Content-Type is
    'application/octet-stream' and every other header is the client's
    own, so the Authorization header is sent as for any other call.  The
    [customerId] argument has no effect. *)
Theorem uploadBinaryImage_overrides_only_the_content_type :
  forall (client : AxiosInstance) (customerId imageBuffer : Value)
         (endpoint : string),
    emits (fun r =>
             method r = PUT /\ url r = endpoint /\ data r = imageBuffer
             /\ lookup (headers r) "Content-Type"
                = JStr "application/octet-stream"
             /\ (forall k, k <> "Content-Type" ->
                   lookup (headers r) k = lookup (inst_headers client) k))
          (InnovatricsService.uploadBinaryImage client customerId
             imageBuffer endpoint)
    /\ (forall p log,
          length (snd (InnovatricsService.uploadBinaryImage client customerId
                         imageBuffer endpoint p log))
          = S (length log))
    /\ (forall otherId,
          InnovatricsService.uploadBinaryImage client otherId imageBuffer endpoint
          = InnovatricsService.uploadBinaryImage client customerId
              imageBuffer endpoint).
Proof.
  intros client customerId imageBuffer endpoint. split; [| split].
  - unfold InnovatricsService.uploadBinaryImage. walk. cbn.
    repeat split.
    + apply lookup_set_same.
    + intros k Hk. apply lookup_set_other. congruence.
  - intros p log.
    destruct (perform_calls client
                (UploadBinaryImage customerId imageBuffer endpoint) p log)
      as [new [E [L _]]].
    cbn [perform] in E. rewrite E, length_app.
    unfold InnovatricsService.uploadBinaryImage, try_catch, send,
      InnovatricsService.rethrow, throw in E.
    destruct (p (log ++ _)%list) in E; cbn in E;
      apply app_inv_head in E; subst new; cbn; lia.
  - reflexivity.
Qed.

(* ================================================================== *)
(** ** Configuration defaults *)
(* ================================================================== *)

(** X13.  The configuration never holds an empty value: the port, the
    base URL, the API key and the API secret are each the environment
    variable when that is set and non-empty, and the built-in default
    otherwise; for the key and the secret the default is the placeholder
    text, not an absent value. *)
Theorem config_falls_back_to_defaults :
  forall (env : ProcessEnv),
    let innovatrics := get (config env) "innovatrics" in
    let chosen := fun (variable : string) (default : Value) =>
      if truthy (lookup env variable) then lookup env variable else default in
    get (config env) "port" = chosen "PORT" (JNum "3000")
    /\ get innovatrics "baseUrl"
       = chosen "INNOVATRICS_BASE_URL"
           (JStr "https://dot.innovatrics.com/identity")
    /\ get innovatrics "apiKey"
       = chosen "INNOVATRICS_API_KEY" (JStr "your_innovatrics_api_key")
    /\ get innovatrics "apiSecret"
       = chosen "INNOVATRICS_API_SECRET" (JStr "your_innovatrics_api_secret")
    /\ truthy (get (config env) "port") = true
    /\ truthy (get innovatrics "baseUrl") = true
    /\ truthy (get innovatrics "apiKey") = true
    /\ truthy (get innovatrics "apiSecret") = true.
Proof.
  intros env innovatrics chosen. unfold innovatrics, chosen, config. cbn.
  unfold orElse.
  repeat split; try reflexivity;
    match goal with
    | |- truthy (if truthy ?v then _ else _) = true =>
        destruct (truthy v) eqn:E; [exact E | reflexivity]
    end.
Qed.

(* ================================================================== *)
(** ** The global error handler *)
(* ================================================================== *)

(** X14.  The global error handler always answers with [success: false],
    a status that is the error's own when it has one and 500 otherwise,
    and a message that is the error's own text in every environment, or
    'Internal server error' when it has none.  The stack trace is sent
    only when NODE_ENV is exactly 'development'; with NODE_ENV unset the
    start-up banner reads 'development' and yet no stack is sent. *)
Theorem errorHandler_sends_the_stack_only_in_development :
  forall (env : ProcessEnv) (err : Value),
    let response := App.errorHandler env err in
    get (App.json response) "success" = JBool false
    /\ App.status response
       = (if truthy (get err "status") then get err "status" else JNum "500")
    /\ get (App.json response) "message"
       = (if truthy (get err "message") then get err "message"
          else JStr "Internal server error")
    /\ get (App.json response) "stack"
       = (if App.strictly_equals (lookup env "NODE_ENV") "development"
          then get err "stack" else JUndefined)
    /\ (lookup env "NODE_ENV" = JUndefined ->
        App.bannerEnvironment env = inr "development"
        /\ get (App.json response) "stack" = JUndefined).
Proof.
  intros env err response. unfold response, App.errorHandler, orElse.
  cbn -[App.strictly_equals].
  split; [| split; [| split; [| split]]].
  - destruct (App.strictly_equals (lookup env "NODE_ENV") "development");
      reflexivity.
  - reflexivity.
  - destruct (App.strictly_equals (lookup env "NODE_ENV") "development");
      reflexivity.
  - destruct (App.strictly_equals (lookup env "NODE_ENV") "development");
      reflexivity.
  - intros Hunset. unfold App.bannerEnvironment. rewrite Hunset.
    split; reflexivity.
Qed.

(* ================================================================== *)
(** ** Where customer data is written and where it is looked for *)
(* ================================================================== *)

Lemma emits_bind_ret {A B} (P : AxiosRequest -> Prop) (a : A) (k : A -> M B) :
  emits P (k a) -> emits P (bind (ret a) k).
Proof.
  intros H p log. exact (H p log).
Qed.

Lemma emits_bind_throw {A B} (P : AxiosRequest -> Prop) e (k : A -> M B) :
  emits P (bind (throw e) k).
Proof.
  intros p log. exists []. cbn. rewrite app_nil_r. auto.
Qed.

(** X15.  The selfie and the liveness data are written under
    [/customers/<id>/...], while the selfie is fetched and both are
    deleted under [/api/v1/customers/<id>/...]: for no customer id does
    a fetch or a deletion address the URL the data was sent to. *)
Theorem data_is_never_read_or_deleted_where_it_was_written :
  forall (client : AxiosInstance) (customerId image livenessData : Value),
    let written := fun what (r : AxiosRequest) =>
      exists id, toString customerId = inr id
                 /\ url r = "/customers/" ++ id ++ what in
    let sought := fun what (r : AxiosRequest) =>
      exists id, toString customerId = inr id
                 /\ url r = "/api/v1/customers/" ++ id ++ what in
    emits (fun r => method r = PUT /\ written "/selfie" r)
      (InnovatricsService.uploadSelfie client customerId image)
    /\ emits (fun r => method r = PUT /\ written "/liveness" r)
         (InnovatricsService.submitLivenessData client customerId livenessData)
    /\ emits (fun r => method r = GET /\ sought "/selfie" r)
         (InnovatricsService.getSelfie client customerId)
    /\ emits (fun r => method r = DELETE /\ sought "/selfie" r)
         (InnovatricsService.deleteSelfie client customerId)
    /\ emits (fun r => method r = DELETE /\ sought "/liveness" r)
         (InnovatricsService.deleteLivenessData client customerId)
    /\ (forall what what' r, written what r -> ~ sought what' r).
Proof.
  intros client customerId image livenessData written sought.
  split; [| split; [| split; [| split; [| split]]]].
  1-5: unfold InnovatricsService.uploadSelfie,
         InnovatricsService.submitLivenessData, InnovatricsService.getSelfie,
         InnovatricsService.deleteSelfie,
         InnovatricsService.deleteLivenessData, liftE;
       destruct (toString customerId) as [e | id] eqn:Hid;
       (apply emits_try_catch; [| intro; apply emits_rethrow]);
       [ apply emits_bind_throw
       | apply emits_bind_ret; walk; split;
         [reflexivity | exists id; split; reflexivity] ].
  intros what what' r (id & _ & Hw) (id' & _ & Hs).
  rewrite Hw in Hs. cbn in Hs. discriminate.
Qed.

(* ================================================================== *)
(** ** Storing the onboarding status *)
(* ================================================================== *)

(** X16.  [updateCustomerOnboardingStatus] makes exactly one request, a
    POST to [/customers/<id>/store], unless the customer id cannot be
    printed, in which case it makes none and throws.  The body holds the
    onboarding status, and the external id only when one is given: an
    absent or empty external id is left out of the body altogether.  On
    success it returns nothing; on a rejection it throws the error of
    'Failed to store customer'. *)
Theorem updateCustomerOnboardingStatus_omits_an_empty_externalId :
  forall (client : AxiosInstance) (customerId status externalId : Value)
         (p : Provider) (log : Log),
    let payload :=
      if truthy externalId
      then JObj [ ("onboardingStatus", status); ("externalId", externalId) ]
      else JObj [("onboardingStatus", status)] in
    InnovatricsService.updateCustomerOnboardingStatus client
      customerId status externalId p log
    = match toString customerId with
      | inl e =>
          (inl (InnovatricsService.failed "Failed to store customer" e), log)
      | inr id =>
          let store :=
            request client POST ("/customers/" ++ id ++ "/store") payload in
          (match p (log ++ [store])%list with
           | Fulfilled _ => inr JUndefined
           | Rejected e =>
               inl (InnovatricsService.failed "Failed to store customer" e)
           end,
           log ++ [store])%list
      end.
Proof.
  intros client customerId status externalId p log payload.
  unfold InnovatricsService.updateCustomerOnboardingStatus,
    InnovatricsService.storeCustomer, InnovatricsService.rethrow,
    try_catch, bind, send, ret, throw, liftE.
  destruct (toString customerId) as [e | id]; [reflexivity |].
  assert (JObj (spread [("onboardingStatus", status)]
                  (if truthy externalId
                   then JObj [("externalId", externalId)]
                   else JObj [])) = payload) as ->.
  { unfold payload. destruct (truthy externalId); reflexivity. }
  cbn -[String.append].
  destruct (p (log ++ _)%list); reflexivity.
Qed.

(* ================================================================== *)
(** ** The validation gate of the routes *)
(* ================================================================== *)

Lemma map_msg_readable (errors : list Value) :
  Forall (fun e => e <> JUndefined /\ e <> JNull) errors ->
  map_msg errors = inr (map (fun e => get e "msg") errors).
Proof.
  induction 1 as [| e rest [H1 H2] _ IH]; cbn; [reflexivity |].
  rewrite IH. destruct e; try reflexivity; contradiction.
Qed.

(** X17.  The validation gate lets a request through to its controller
    exactly when it carries no validation errors (none recorded, or an
    empty list), and then the outcome is the controller's.  When errors
    are recorded, the controller is not run and the provider is not
    contacted: the answer is status 400 'Validation failed' with one
    message per error, in order. *)
Theorem handleValidationErrors_guards_the_controller :
  forall (next : Handler) (p : Provider) (log : Log),
    handleValidationErrors None next p log
    = (Handled (fst (next p log)), snd (next p log))
    /\ handleValidationErrors (Some []) next p log
       = (Handled (fst (next p log)), snd (next p log))
    /\ (forall e rest,
          Forall (fun e => e <> JUndefined /\ e <> JNull) (e :: rest) ->
          handleValidationErrors (Some (e :: rest)) next p log
          = (Direct 400
               (JObj [ ("success", JBool false);
                       ("message", JStr "Validation failed");
                       ("errors",
                        JArr (map (fun e => get e "msg") (e :: rest))) ]),
             log)).
Proof.
  intros next p log. unfold handleValidationErrors. repeat split.
  - cbn. destruct (next p log); reflexivity.
  - cbn. destruct (next p log); reflexivity.
  - intros e rest H.
    assert ((0 <? Z.of_nat (length (e :: rest)))%Z = true) as ->.
    { apply Z.ltb_lt. cbn [length]. lia. }
    rewrite (map_msg_readable _ H). reflexivity.
Qed.

(* ================================================================== *)
(** ** Creating a challenge on request *)
(* ================================================================== *)

(** X18.  The liveness-challenge handler has no input check and no
    default: every call, with or without a body, makes exactly one
    provider request, whose body carries the caller's [challengeType] as
    it came (absent stays absent, it does not become 'passive'), and the
    reply is the provider's challenge on success and the 500 error
    'Failed to create liveness challenge' otherwise. *)
Theorem createLivenessChallenge_passes_the_type_through :
  forall (env : ProcessEnv) (req : Request) (p : Provider) (log : Log),
    let customerId := param req "customerId" in
    let call :=
      request (innovatricsClient env) PUT
        ("/customers/" ++ param_text req "customerId"
         ++ "/liveness/records/challenge")
        (JObj [("challengeType", lookup (body req) "challengeType")]) in
    createLivenessChallenge env req p log
    = (match p (log ++ [call])%list with
       | Fulfilled challenge =>
           success
             (JObj [ ("customerId", customerId);
                     ("challenge", challenge);
                     ("status", JStr "challenge_created") ])
             "Liveness challenge created successfully"
       | Rejected e =>
           error "Failed to create liveness challenge" 500
             (message (InnovatricsService.failed
                         "Failed to create liveness challenge" e))
       end,
       log ++ [call])%list.
Proof.
  intros env req p log customerId call.
  unfold createLivenessChallenge, try_respond,
    InnovatricsService.createLivenessChallenge, InnovatricsService.rethrow,
    try_catch, bind, send, ret, throw, liftE.
  rewrite toString_param. cbn -[String.append orElse]. fold customerId.
  change (orElse (JObj [("challengeType", lookup (body req) "challengeType")])
            (JObj []))
    with (JObj [("challengeType", lookup (body req) "challengeType")]).
  fold call.
  destruct (p (log ++ [call])%list); reflexivity.
Qed.
